(** * USB HID report descriptors: the [construct] formats of
      [usb_protocol/types/descriptors/hid.py] and the emitter of
      [usb_protocol/emitters/descriptors/hid.py].

    The formats are declared with the combinators of the Python [construct]
    library.  Each combinator the two files use is written out below as a pair
    of functions, one for [parse] and one for [build], over an explicit byte
    (or bit) stream; a Python exception is a [Raise] result. *)

From Stdlib Require Import ZArith List Lia Bool String Ascii.
From Stdlib.Strings Require Import Byte.
Import ListNotations.
Local Open Scope Z_scope.

(** ** Exceptions and results *)

Inductive error : Type :=
| StreamError            (* construct: could not read enough bytes *)
| RangeError             (* construct: Array built from the wrong number of elements *)
| IntegerError           (* construct: BitsInteger built from a number outside its range *)
| FormatFieldError       (* construct: Byte built from something that is no 0..255 int *)
| KeyError (k : string)  (* a Struct member missing from the dict being built *)
| AttributeError (a : string)
| IndexError
| TypeError
| ValueError.

Inductive result (A : Type) : Type :=
| Ok (a : A)
| Raise (e : error).
Arguments Ok {A} a.
Arguments Raise {A} e.

Definition bind {A B : Type} (r : result A) (k : A -> result B) : result B :=
  match r with
  | Ok a => k a
  | Raise e => Raise e
  end.

Notation "x <- r ;; k" := (bind r (fun x => k))
  (at level 61, r at next level, right associativity).
Notation "' pat <- r ;; k" := (bind r (fun x => match x with pat => k end))
  (at level 61, pat pattern, r at next level, right associativity).

(** ** Python values that reach the formats *)

(** What a caller may put in an item's payload tuple: an int or a bytes object. *)
Inductive pyobj : Type :=
| PyInt (z : Z)
| PyBytes (b : list byte).

(** [lst[k]] on a Python list, negative indices counting from the end. *)
Definition list_getitem {A : Type} (lst : list A) (k : Z) : result A :=
  let len := Z.of_nat (List.length lst) in
  let i := if k <? 0 then k + len else k in
  if (i <? 0) || (len <=? i) then Raise IndexError
  else match nth_error lst (Z.to_nat i) with
       | Some a => Ok a
       | None => Raise IndexError
       end.

(** [lst.index(v)] on a Python list of ints. *)
Fixpoint list_index (lst : list Z) (v : Z) : result Z :=
  match lst with
  | [] => Raise ValueError
  | x :: lst' => if x =? v then Ok 0 else i <- list_index lst' v ;; Ok (i + 1)
  end.

(** [dict(enumerate(l))]. *)
Fixpoint enumerate_from {A : Type} (i : Z) (l : list A) : list (Z * A) :=
  match l with
  | [] => []
  | a :: l' => (i, a) :: enumerate_from (i + 1) l'
  end.

Definition enumerate {A : Type} (l : list A) : list (Z * A) := enumerate_from 0 l.

Fixpoint dict_get {A : Type} (d : list (Z * A)) (k : Z) : option A :=
  match d with
  | [] => None
  | (k', a) :: d' => if k' =? k then Some a else dict_get d' k
  end.

(** A [Container] of flags: the names in field order, each with its value. *)
Definition Container : Type := list (string * bool).

Fixpoint Container_get (c : Container) (name : string) : option bool :=
  match c with
  | [] => None
  | (n, v) :: c' => if String.eqb n name then Some v else Container_get c' name
  end.

(** ** The construct combinators the two files use *)

Module Construct.

(** [stream_read(stream, length)]. *)
Definition stream_read {U : Type} (length : nat) (s : list U)
  : result (list U * list U) :=
  if (List.length s <? length)%nat then Raise StreamError
  else Ok (firstn length s, skipn length s).

(** [bytes2bits] and [bits2bytes]: most significant bit first. *)
Definition byte2bits (b : byte) : list bool :=
  let '(b0, (b1, (b2, (b3, (b4, (b5, (b6, b7))))))) := Byte.to_bits b in
  [b7; b6; b5; b4; b3; b2; b1; b0].

Definition bytes2bits (data : list byte) : list bool := flat_map byte2bits data.

Fixpoint bits2bytes (data : list bool) : result (list byte) :=
  match data with
  | [] => Ok []
  | b7 :: b6 :: b5 :: b4 :: b3 :: b2 :: b1 :: b0 :: data' =>
      rest <- bits2bytes data' ;;
      Ok (Byte.of_bits (b0, (b1, (b2, (b3, (b4, (b5, (b6, b7))))))) :: rest)
  | _ => Raise ValueError
  end.

(** [bits2integer]: [number = (number << 1) | b] over the bits. *)
Definition bits2integer (data : list bool) : Z :=
  fold_left (fun number b => Z.lor (Z.shiftl number 1) (Z.b2z b)) data 0.

(** [integer2bits(number, width)]: the low [width] bits, written from the
    right. *)
Fixpoint integer2bits (number : Z) (width : nat) : list bool :=
  match width with
  | O => []
  | S w => integer2bits (Z.shiftr number 1) w ++ [Z.odd number]
  end.

(** [Flag], inside a [BitStruct]: one bit of the stream. *)
Definition Flag_parse (s : list bool) : result (bool * list bool) :=
  match s with
  | [] => Raise StreamError
  | b :: s' => Ok (b, s')
  end.

Definition Flag_build (obj : bool) : list bool := [obj].

(** [BitsInteger(length)]; building takes the unsigned numbers that fit
    [length] bits and raises on the others. *)
Definition BitsInteger_parse (length : nat) (s : list bool)
  : result (Z * list bool) :=
  '(data, s') <- stream_read length s ;;
  Ok (bits2integer data, s').

Definition BitsInteger_build (length : nat) (obj : Z) : result (list bool) :=
  if (obj <? 0) || (2 ^ Z.of_nat length <=? obj) then Raise IntegerError
  else Ok (integer2bits obj length).

(** [Byte], an unsigned 8-bit [FormatField]. *)
Definition byte_of_Z (z : Z) : byte :=
  match Byte.of_N (Z.to_N z) with
  | Some b => b
  | None => x00
  end.

Definition Z_of_byte (b : byte) : Z := Z.of_N (Byte.to_N b).

Definition Byte_parse (s : list byte) : result (Z * list byte) :=
  match s with
  | [] => Raise StreamError
  | b :: s' => Ok (Z_of_byte b, s')
  end.

Definition Byte_build (obj : pyobj) : result (list byte) :=
  match obj with
  | PyInt z => if (0 <=? z) && (z <? 256) then Ok [byte_of_Z z]
               else Raise FormatFieldError
  | PyBytes _ => Raise FormatFieldError
  end.

(** [Byte[count]], that is [Array(count, Byte)]. *)
Fixpoint Array_parse (count : nat) (s : list byte)
  : result (list pyobj * list byte) :=
  match count with
  | O => Ok ([], s)
  | S count' =>
      '(e, s1) <- Byte_parse s ;;
      '(l, s2) <- Array_parse count' s1 ;;
      Ok (PyInt e :: l, s2)
  end.

Fixpoint Array_build_elems (obj : list pyobj) : result (list byte) :=
  match obj with
  | [] => Ok []
  | e :: obj' =>
      b <- Byte_build e ;;
      rest <- Array_build_elems obj' ;;
      Ok (b ++ rest)
  end.

Definition Array_build (count : nat) (obj : list pyobj) : result (list byte) :=
  if negb (List.length obj =? count)%nat then Raise RangeError
  else Array_build_elems obj.

(** A [Struct] all of whose members are [name / Flag]. *)
Fixpoint FlagStruct_parse (names : list string) (s : list bool)
  : result (Container * list bool) :=
  match names with
  | [] => Ok ([], s)
  | name :: names' =>
      '(v, s1) <- Flag_parse s ;;
      '(c, s2) <- FlagStruct_parse names' s1 ;;
      Ok ((name, v) :: c, s2)
  end.

(** Building reads [obj[name]] for every member; [Flag] has no default. *)
Fixpoint FlagStruct_build (names : list string) (obj : Container)
  : result (list bool) :=
  match names with
  | [] => Ok []
  | name :: names' =>
      match Container_get obj name with
      | None => Raise (KeyError name)
      | Some v =>
          rest <- FlagStruct_build names' obj ;;
          Ok (Flag_build v ++ rest)
      end
  end.

(** [Bitwise(subcon)] for a subcon of fixed size: [size] bytes are read and
    handed to the subcon as bits; on building the subcon's bits are packed
    into bytes. *)
Definition Bitwise_parse {A : Type} (size : nat)
    (subcon : list bool -> result (A * list bool)) (s : list byte)
  : result (A * list byte) :=
  '(data, s') <- stream_read size s ;;
  '(obj, _) <- subcon (bytes2bits data) ;;
  Ok (obj, s').

Definition Bitwise_build (size : nat) (bits : result (list bool))
  : result (list byte) :=
  data <- bits ;;
  packed <- bits2bytes data ;;
  if negb (List.length packed =? size)%nat then Raise StreamError
  else Ok packed.

(** [GreedyRange(subcon)]: elements are parsed until the subcon raises; the
    stream is then put back where the failed element began and the list so
    far is the result.  The exception itself is dropped.  [fuel] bounds the
    number of elements; [None] only when it runs out. *)
Fixpoint GreedyRange_parse {A : Type}
    (subcon : list byte -> result (A * list byte)) (fuel : nat) (s : list byte)
  : option (list A * list byte) :=
  match fuel with
  | O => None
  | S fuel' =>
      match subcon s with
      | Raise _ => Some ([], s)
      | Ok (e, s') =>
          match GreedyRange_parse subcon fuel' s' with
          | Some (obj, rest) => Some (e :: obj, rest)
          | None => None
          end
      end
  end.

Fixpoint GreedyRange_build {A : Type} (subcon : A -> result (list byte))
    (obj : list A) : result (list byte) :=
  match obj with
  | [] => Ok []
  | e :: obj' =>
      b <- subcon e ;;
      rest <- GreedyRange_build subcon obj' ;;
      Ok (b ++ rest)
  end.

End Construct.

(** ** [usb_protocol/types/descriptors/hid.py] *)

Module HID.
Import Construct.

(** The [IntEnum] of item prefixes: a 4-bit tag above a 2-bit type. *)
Inductive HIDPrefix : Type :=
(* Main items *)
| INPUT | OUTPUT | FEATURE | COLLECTION | END_COLLECTION
(* Global items *)
| USAGE_PAGE | LOGICAL_MIN | LOGICAL_MAX | PHYSICAL_MIN | PHYSICAL_MAX
| UNIT_EXPONENT | UNIT | REPORT_SIZE | REPORT_ID | REPORT_COUNT | PUSH | POP
(* Local items *)
| USAGE | USAGE_MIN | USAGE_MAX | DESIGNATOR_IDX | DESIGNATOR_MIN
| DESIGNATOR_MAX | STRING_IDX | STRING_MIN | STRING_MAX | DELIMITER.

Definition HIDPrefix_value (p : HIDPrefix) : Z :=
  match p with
  | INPUT          => 0x20   (* 0b1000_00 *)
  | OUTPUT         => 0x24   (* 0b1001_00 *)
  | FEATURE        => 0x2c   (* 0b1011_00 *)
  | COLLECTION     => 0x28   (* 0b1010_00 *)
  | END_COLLECTION => 0x30   (* 0b1100_00 *)
  | USAGE_PAGE     => 0x01   (* 0b0000_01 *)
  | LOGICAL_MIN    => 0x05   (* 0b0001_01 *)
  | LOGICAL_MAX    => 0x09   (* 0b0010_01 *)
  | PHYSICAL_MIN   => 0x0d   (* 0b0011_01 *)
  | PHYSICAL_MAX   => 0x11   (* 0b0100_01 *)
  | UNIT_EXPONENT  => 0x15   (* 0b0101_01 *)
  | UNIT           => 0x19   (* 0b0110_01 *)
  | REPORT_SIZE    => 0x1d   (* 0b0111_01 *)
  | REPORT_ID      => 0x21   (* 0b1000_01 *)
  | REPORT_COUNT   => 0x25   (* 0b1001_01 *)
  | PUSH           => 0x29   (* 0b1010_01 *)
  | POP            => 0x2d   (* 0b1011_01 *)
  | USAGE          => 0x02   (* 0b0000_10 *)
  | USAGE_MIN      => 0x06   (* 0b0001_10 *)
  | USAGE_MAX      => 0x0a   (* 0b0010_10 *)
  | DESIGNATOR_IDX => 0x0e   (* 0b0011_10 *)
  | DESIGNATOR_MIN => 0x12   (* 0b0100_10 *)
  | DESIGNATOR_MAX => 0x16   (* 0b0101_10 *)
  | STRING_IDX     => 0x1e   (* 0b0111_10 *)
  | STRING_MIN     => 0x22   (* 0b1000_10 *)
  | STRING_MAX     => 0x26   (* 0b1001_10 *)
  | DELIMITER      => 0x2a   (* 0b1010_10 *)
  end.

Definition HIDPrefix_members : list HIDPrefix :=
  [ INPUT; OUTPUT; FEATURE; COLLECTION; END_COLLECTION;
    USAGE_PAGE; LOGICAL_MIN; LOGICAL_MAX; PHYSICAL_MIN; PHYSICAL_MAX;
    UNIT_EXPONENT; UNIT; REPORT_SIZE; REPORT_ID; REPORT_COUNT; PUSH; POP;
    USAGE; USAGE_MIN; USAGE_MAX; DESIGNATOR_IDX; DESIGNATOR_MIN;
    DESIGNATOR_MAX; STRING_IDX; STRING_MIN; STRING_MAX; DELIMITER ].

(** The value an item carries in [bHeader.prefix]. *)
Inductive prefix_t : Type :=
| Member (p : HIDPrefix)             (* a [HIDPrefix] member, as a caller of the emitter passes *)
| EnumIntegerString (p : HIDPrefix)  (* what [Enum] parses a mapped value into: the name, with [.intvalue] *)
| EnumInteger (n : Z).               (* what [Enum] parses an unmapped value into: the bare int *)

(** [construct.Enum(subcon, HIDPrefix)]: decoding looks the integer up among
    the members and hands it back as it is when there is none; encoding
    passes integers through and maps a name to its value. *)
Definition Enum_decode (n : Z) : prefix_t :=
  match find (fun p => HIDPrefix_value p =? n) HIDPrefix_members with
  | Some p => EnumIntegerString p
  | None => EnumInteger n
  end.

Definition Enum_encode (obj : prefix_t) : Z :=
  match obj with
  | Member p => HIDPrefix_value p
  | EnumIntegerString p => HIDPrefix_value p
  | EnumInteger n => n
  end.

(** The payload formats an item can take. *)
Inductive Subcon : Type :=
| ByteArray (count : nat)               (* [construct.Byte[count]] *)
| BitStruct (names : list string)       (* [construct.BitStruct] of [name / Flag] members *)
| Pass.                                 (* the default of a [Switch] *)

Definition ItemFlags2 : Subcon :=
  BitStruct
    [ "reserved6"; "reserved5"; "reserved4"; "reserved3"; "reserved2";
      "reserved1"; "reserved0"; "bitfield_bufferedbytes";
      "volatile"; "null"; "nPreferred"; "nLinear"; "wrap";
      "absolute_relative"; "array_variable"; "data_constant" ]%string.

Definition ItemFlags1 : Subcon :=
  BitStruct
    [ "volatile"; "null"; "nPreferred"; "nLinear"; "wrap";
      "absolute_relative"; "array_variable"; "data_constant" ]%string.

Definition _hid_item_flags : list (Z * Subcon) :=
  enumerate [ ByteArray 0; ItemFlags1; ItemFlags2; ByteArray 4 ].

Record bHeader_t : Type := { prefix : prefix_t; bSize : Z }.

(** [ItemFlags = Switch(this.bHeader.bSize, _hid_item_flags)]. *)
Definition ItemFlags (bHeader : bHeader_t) : Subcon :=
  match dict_get _hid_item_flags (bSize bHeader) with
  | Some sc => sc
  | None => Pass
  end.

(** [HasItemFlags(ctx)].  Neither a parsed name nor a bare int is an instance
    of [HIDPrefix]; the name has [.intvalue], the bare int has not.  (The
    [print] of the type writes to the standard output and is left out.) *)
Definition HasItemFlags (bHeader : bHeader_t) : result bool :=
  v <- match prefix bHeader with
       | Member p => Ok (HIDPrefix_value p)
       | EnumIntegerString p => Ok (HIDPrefix_value p)
       | EnumInteger _ => Raise (AttributeError "intvalue")
       end ;;
  Ok (existsb (fun p => HIDPrefix_value p =? v) [INPUT; OUTPUT; FEATURE]).

Definition _hid_item_length : list Z := [ 0; 1; 2; 4 ].

(** An item's [data]: a list (or tuple) of elements, a container of flags,
    or [None]. *)
Inductive data_t : Type :=
| DataList (l : list pyobj)
| DataFlags (c : Container)
| DataNone.

Record ReportDescriptorItem_t : Type :=
  { bHeader : bHeader_t; data : data_t }.

(** ["bHeader" / BitStruct("prefix" / Enum(BitsInteger(6), HIDPrefix),
    "bSize" / BitsInteger(2))]. *)
Definition bHeader_bits_parse (s : list bool) : result (bHeader_t * list bool) :=
  '(n, s1) <- BitsInteger_parse 6 s ;;
  '(sz, s2) <- BitsInteger_parse 2 s1 ;;
  Ok ({| prefix := Enum_decode n; bSize := sz |}, s2).

Definition bHeader_bits_build (obj : bHeader_t) : result (list bool) :=
  p <- BitsInteger_build 6 (Enum_encode (prefix obj)) ;;
  sz <- BitsInteger_build 2 (bSize obj) ;;
  Ok (p ++ sz).

Definition bHeader_parse (s : list byte) : result (bHeader_t * list byte) :=
  Bitwise_parse 1 bHeader_bits_parse s.

Definition bHeader_build (obj : bHeader_t) : result (list byte) :=
  Bitwise_build 1 (bHeader_bits_build obj).

(** Parsing and building a payload format. *)
Definition Subcon_parse (sc : Subcon) (s : list byte)
  : result (data_t * list byte) :=
  match sc with
  | ByteArray count =>
      '(l, s') <- Array_parse count s ;; Ok (DataList l, s')
  | BitStruct names =>
      '(c, s') <- Bitwise_parse (List.length names / 8)
                    (FlagStruct_parse names) s ;;
      Ok (DataFlags c, s')
  | Pass => Ok (DataNone, s)
  end.

(** What [Struct._build] does with a tuple before it reads any member:
    [context.update(obj)] unpacks every element into a key and a value. *)
Fixpoint Container_update_tuple (obj : list pyobj) : result unit :=
  match obj with
  | [] => Ok tt
  | PyInt _ :: _ => Raise TypeError
  | PyBytes b :: obj' =>
      if (List.length b =? 2)%nat then Container_update_tuple obj'
      else Raise ValueError
  end.

Definition Subcon_build (sc : Subcon) (obj : data_t) : result (list byte) :=
  match sc with
  | ByteArray count =>
      match obj with
      | DataList l => Array_build count l
      | DataFlags c =>
          (* [len] of a dict, then its keys as elements *)
          if negb (List.length c =? count)%nat then Raise RangeError
          else match c with [] => Ok [] | _ :: _ => Raise FormatFieldError end
      | DataNone => Raise TypeError
      end
  | BitStruct names =>
      Bitwise_build (List.length names / 8)
        match obj with
        | DataFlags c => FlagStruct_build names c
        | DataList l =>
            _ <- Container_update_tuple l ;;
            match names with [] => Ok [] | _ :: _ => Raise TypeError end
        | DataNone => FlagStruct_build names []
        end
  | Pass => Ok []
  end.

(** ["data" / IfThenElse(HasItemFlags, ItemFlags,
    construct.Byte[lambda ctx: _hid_item_length[ctx.bHeader.bSize]])]:
    the format the header selects. *)
Definition data_subcon (bHeader : bHeader_t) : result Subcon :=
  flags <- HasItemFlags bHeader ;;
  if flags then Ok (ItemFlags bHeader)
  else
    count <- list_getitem _hid_item_length (bSize bHeader) ;;
    Ok (ByteArray (Z.to_nat count)).

(** Modelled from the spec: [DescriptorFormat], the repository's subclass of
    [construct.Struct] declared outside these two files, is taken to parse and
    build its members in the order they are listed, as a [Struct] does: the
    header byte first, then the data the header selects. *)
Definition ReportDescriptorItem_parse (s : list byte)
  : result (ReportDescriptorItem_t * list byte) :=
  '(h, s1) <- bHeader_parse s ;;
  sc <- data_subcon h ;;
  '(d, s2) <- Subcon_parse sc s1 ;;
  Ok ({| bHeader := h; data := d |}, s2).

Definition ReportDescriptorItem_build (obj : ReportDescriptorItem_t)
  : result (list byte) :=
  h <- bHeader_build (bHeader obj) ;;
  sc <- data_subcon (bHeader obj) ;;
  d <- Subcon_build sc (data obj) ;;
  Ok (h ++ d).

(** [ReportDescriptor = GreedyRange(ReportDescriptorItem)].  An item takes at
    least its header byte, so one more than the length of the buffer is fuel
    enough. *)
Definition ReportDescriptor_parse_stream (s : list byte)
  : option (list ReportDescriptorItem_t * list byte) :=
  GreedyRange_parse ReportDescriptorItem_parse (S (List.length s)) s.

(** [ReportDescriptor.parse(data)]: what is left of the buffer is not looked at. *)
Definition ReportDescriptor_parse (data : list byte)
  : option (list ReportDescriptorItem_t) :=
  option_map fst (ReportDescriptor_parse_stream data).

Definition ReportDescriptor_build (obj : list ReportDescriptorItem_t)
  : result (list byte) :=
  GreedyRange_build ReportDescriptorItem_build obj.

End HID.

(** ** [usb_protocol/emitters/descriptors/hid.py] *)

Module Emitter.
Import Construct HID.

(** One pending contribution to the report: bytes, passed through as they
    are, or an item emitter, which has [emit]. *)
Inductive report_t : Type :=
| RawReport (report_data : list byte)
| ItemReport (hid_report : ReportDescriptorItem_t).

(** Modelled from the spec: the descriptor-table collaborator
    ([DeviceDescriptorCollection], declared outside these two files).  Only
    its [add_descriptor] is used; it adds one entry, the blob under its
    descriptor type, to the table. *)
Record DeviceDescriptorCollection : Type :=
  { descriptors : list (Z * list byte) }.

Definition add_descriptor (c : DeviceDescriptorCollection)
    (descriptor : list byte) (descriptor_type : Z) : DeviceDescriptorCollection :=
  {| descriptors := descriptors c ++ [(descriptor_type, descriptor)] |}.

(** The emitter object: [__init__] sets the first two fields, [_pre_emit]
    the third. *)
Record HIDDescriptor : Type :=
  { _parent_descriptor : DeviceDescriptorCollection;
    _reports : list report_t;
    wDescriptorLength : option Z }.

Definition __init__ (parent_descriptor : DeviceDescriptorCollection) : HIDDescriptor :=
  {| _parent_descriptor := parent_descriptor;
     _reports := [];
     wDescriptorLength := None |}.

Definition append_report (self : HIDDescriptor) (r : report_t) : HIDDescriptor :=
  {| _parent_descriptor := _parent_descriptor self;
     _reports := _reports self ++ [r];
     wDescriptorLength := wDescriptorLength self |}.

Definition add_report_raw (self : HIDDescriptor) (report_data : report_t)
  : HIDDescriptor :=
  append_report self report_data.

(** [add_report_item(report_prefix, *report_data)]: [report_data] is the
    tuple of the remaining arguments. *)
Definition add_report_item (self : HIDDescriptor) (report_prefix : prefix_t)
    (report_data : list pyobj) : result HIDDescriptor :=
  report_len <- list_index _hid_item_length (Z.of_nat (List.length report_data)) ;;
  Ok (append_report self
        (ItemReport {| bHeader := {| prefix := report_prefix; bSize := report_len |};
                       data := DataList report_data |})).

(** The keyword arguments of [add_inpout_item]. *)
Record inpout_kwargs : Type :=
  { data_constant : bool;
    array_variable : bool;
    absolute_relative : bool;
    wrap : bool;
    linear : bool;
    preferred : bool;
    null : bool;
    volatile : bool;
    bitfield_bufferedbytes : bool }.

(** Their defaults, as the signature gives them. *)
Definition defaults : inpout_kwargs :=
  {| data_constant := false;
     array_variable := true;
     absolute_relative := false;
     wrap := false;
     linear := false;
     preferred := true;
     null := false;
     volatile := false;
     bitfield_bufferedbytes := false |}.

(** The dict handed to [itmf.build]. *)
Definition item_flags_dict (kw : inpout_kwargs) : Container :=
  [ ("data_constant", data_constant kw);
    ("array_variable", array_variable kw);
    ("absolute_relative", absolute_relative kw);
    ("wrap", wrap kw);
    ("nLinear", negb (linear kw));
    ("nPreferred", negb (preferred kw));
    ("null", null kw);
    ("volatile", volatile kw) ]%string.

Definition add_inpout_item (self : HIDDescriptor) (item : prefix_t)
    (kw : inpout_kwargs) : result HIDDescriptor :=
  let itmf := if bitfield_bufferedbytes kw then ItemFlags2 else ItemFlags1 in
  item_flags <- Subcon_build itmf (DataFlags (item_flags_dict kw)) ;;
  add_report_item self item [PyBytes item_flags].

Definition add_input_item (self : HIDDescriptor) (kw : inpout_kwargs)
  : result HIDDescriptor :=
  add_inpout_item self (Member INPUT) kw.

Definition add_output_item (self : HIDDescriptor) (kw : inpout_kwargs)
  : result HIDDescriptor :=
  add_inpout_item self (Member OUTPUT) kw.

(** Modelled from the spec: [emit] of an item emitter (made by
    [emitter_for_format], declared outside these two files) builds
    [ReportDescriptorItem] from the fields set on it. *)
Definition report_emit (report : report_t) : result (list byte) :=
  match report with
  | RawReport report_data => Ok report_data
  | ItemReport hid_report => ReportDescriptorItem_build hid_report
  end.

Fixpoint emit_reports (reports : list report_t) : result (list (list byte)) :=
  match reports with
  | [] => Ok []
  | report :: reports' =>
      b <- report_emit report ;;
      rest <- emit_reports reports' ;;
      Ok (b :: rest)
  end.

Definition _pre_emit (self : HIDDescriptor) : result HIDDescriptor :=
  report_descriptor <- emit_reports (_reports self) ;;
  let report_descriptor := List.concat report_descriptor in
  let descriptor_len := Z.of_nat (List.length report_descriptor) in
  Ok {| _parent_descriptor :=
          add_descriptor (_parent_descriptor self) report_descriptor 0x22;
        _reports := _reports self;
        wDescriptorLength := Some descriptor_len |}.

(** Modelled from the spec: the 9-byte HID descriptor record ([HIDDescriptor]
    of the types file, whose field formats are declared outside it), with
    the defaults of the fields the emitter leaves unset: [bLength = 9],
    [bDescriptorType = 0x21], [bcdHID = 1.11], [bCountryCode = 0],
    [bNumDescriptors = 1], [bRepDescriptorType = 0x22] and the 16-bit
    little-endian [wDescriptorLength]. *)
Definition HIDDescriptorType_build (wDescriptorLength : option Z)
  : result (list byte) :=
  match wDescriptorLength with
  | None => Raise (KeyError "wDescriptorLength")
  | Some len =>
      if (0 <=? len) && (len <? 65536)
      then Ok [ x09; x21; x11; x01; x00; x01; x22;
                byte_of_Z (Z.land len 255); byte_of_Z (Z.shiftr len 8) ]
      else Raise FormatFieldError
  end.

(** Modelled from the spec: [emit] of the base class
    ([ComplexDescriptorEmitter], declared outside these two files) runs
    [_pre_emit] and then serializes the descriptor record. *)
Definition emit (self : HIDDescriptor) : result (list byte * HIDDescriptor) :=
  self' <- _pre_emit self ;;
  header <- HIDDescriptorType_build (wDescriptorLength self') ;;
  Ok (header, self').

End Emitter.

Import Construct HID Emitter.

(** ** The wire format *)

(** A validly encoded report descriptor: a run of items, each one header byte
    whose upper six bits are the value of a prefix and whose lower two bits
    select, through [_hid_item_length], how many payload bytes follow. *)
Inductive valid_report : list byte -> Prop :=
| valid_report_nil : valid_report []
| valid_report_item (b : byte) (payload rest : list byte) (p : HIDPrefix) (len : Z) :
    Z.shiftr (Z_of_byte b) 2 = HIDPrefix_value p ->
    list_getitem _hid_item_length (Z.land (Z_of_byte b) 3) = Ok len ->
    Z.of_nat (List.length payload) = len ->
    valid_report rest ->
    valid_report (b :: payload ++ rest).

(** The payload bytes of a format. *)
Definition Subcon_sizeof (sc : Subcon) : nat :=
  match sc with
  | ByteArray count => count
  | BitStruct names => (List.length names / 8)%nat
  | Pass => 0%nat
  end.

(** The formats an item's payload takes when it is parsed. *)
Definition payload_format (sc : Subcon) : Prop :=
  (exists count, sc = ByteArray count) \/ sc = ItemFlags1 \/ sc = ItemFlags2.

(** The flags parsed from a byte, by name, in the order of the stream. *)
Definition flags_of_bits (names : list string) (bits : list bool) : Container :=
  combine names bits.

Definition ItemFlags1_names : list string :=
  match ItemFlags1 with BitStruct names => names | _ => [] end.

Definition ItemFlags2_names : list string :=
  match ItemFlags2 with BitStruct names => names | _ => [] end.

(** The ints a [Byte[count]] parses a payload into. *)
Definition ints_of_bytes (payload : list byte) : list pyobj :=
  map (fun b => PyInt (Z_of_byte b)) payload.

(** The bit the spec's listing gives each flag of the 1-byte record: the
    flags "ordered from most-significant to least-significant exactly as
    listed", [data_constant] first. *)
Definition spec_ItemFlags1_bit (name : string) : Z :=
  if String.eqb name "data_constant" then 7
  else if String.eqb name "array_variable" then 6
  else if String.eqb name "absolute_relative" then 5
  else if String.eqb name "wrap" then 4
  else if String.eqb name "nLinear" then 3
  else if String.eqb name "nPreferred" then 2
  else if String.eqb name "null" then 1
  else 0.

(** The sample of USB HID E.6. *)
Definition report_descriptor_E6 : list byte :=
  [ x05; x01; x09; x06; xa1; x01; x05; x07; x19; xe0; x29; xe7; x15; x00;
    x25; x01; x75; x01; x95; x08; x81; x02; x95; x01; x75; x08; x81; x01;
    x95; x05; x75; x01; x05; x08; x19; x01; x29; x05; x91; x02; x95; x01;
    x75; x03; x91; x01; x95; x06; x75; x08; x15; x00; x25; x65; x05; x07;
    x19; x00; x29; x65; x81; x00; xc0 ].

(** A builder with two pending contributions: an item and raw bytes. *)
Definition sample_builder : HIDDescriptor :=
  {| _parent_descriptor := {| descriptors := [] |};
     _reports :=
       [ ItemReport {| bHeader := {| prefix := Member USAGE_PAGE; bSize := 1 |};
                       data := DataList [PyInt 1] |};
         RawReport [x09; x06] ];
     wDescriptorLength := None |}.

(** The keyword arguments of a call that only passes
    [bitfield_bufferedbytes=True]. *)
Definition buffered_kwargs : inpout_kwargs :=
  {| data_constant := false; array_variable := true;
     absolute_relative := false; wrap := false;
     linear := false; preferred := true;
     null := false; volatile := false;
     bitfield_bufferedbytes := true |}.

(** A caller that adds one item after the other, as the unit test of the
    emitter file does: each call names a prefix and passes the payload bytes
    as ints. *)
Fixpoint add_report_items (self : HIDDescriptor)
    (calls : list (HIDPrefix * list byte)) : result HIDDescriptor :=
  match calls with
  | [] => Ok self
  | (p, payload) :: calls' =>
      self' <- add_report_item self (Member p) (ints_of_bytes payload) ;;
      add_report_items self' calls'
  end.

(** The calls whose item can be emitted: 0, 1, 2 or 4 payload bytes, and only
    0 or 4 under a prefix that [HasItemFlags] accepts. *)
Definition plain_call_ok (call : HIDPrefix * list byte) : bool :=
  let (p, payload) := call in
  let n := List.length payload in
  if existsb (fun q => HIDPrefix_value q =? HIDPrefix_value p) [INPUT; OUTPUT; FEATURE]
  then (n =? 0)%nat || (n =? 4)%nat
  else (n =? 0)%nat || (n =? 1)%nat || (n =? 2)%nat || (n =? 4)%nat.

(** The calls of the emitter's unit test that come before [add_input_item]. *)
Definition test_hidemitter_calls : list (HIDPrefix * list byte) :=
  [ (USAGE_PAGE, [x01]); (USAGE, [x06]); (COLLECTION, [x01]);
    (USAGE_PAGE, [x07]); (USAGE_MIN, [xe0]); (USAGE_MAX, [xe7]);
    (LOGICAL_MIN, [x00]); (LOGICAL_MAX, [x01]); (REPORT_SIZE, [x01]);
    (REPORT_COUNT, [x08]) ].

(** The flag byte the keyword arguments of [add_inpout_item] stand for. *)
Definition item_flags_value (kw : inpout_kwargs) : Z :=
  Z.b2z (data_constant kw)
  + 2 * Z.b2z (array_variable kw)
  + 4 * Z.b2z (absolute_relative kw)
  + 8 * Z.b2z (wrap kw)
  + 16 * Z.b2z (negb (linear kw))
  + 32 * Z.b2z (negb (preferred kw))
  + 64 * Z.b2z (null kw)
  + 128 * Z.b2z (volatile kw).

(** An int a [Byte] can build. *)
Definition byte_range (z : Z) : bool := (0 <=? z) && (z <? 256).

(** An emitter whose one pending contribution is 65536 raw bytes. *)
Definition oversized_report : list byte := repeat x00 (Z.to_nat 65536).

Definition oversized_builder : HIDDescriptor :=
  {| _parent_descriptor := {| descriptors := [] |};
     _reports := [RawReport oversized_report];
     wDescriptorLength := None |}.

(** * The unit tests of the types file *)

Example test_bitstruct_input :
  ReportDescriptor_parse [x81; x02]
  = Some [ {| bHeader := {| prefix := EnumIntegerString INPUT; bSize := 1 |};
              data := DataFlags
                [ ("volatile", false); ("null", false); ("nPreferred", false);
                  ("nLinear", false); ("wrap", false); ("absolute_relative", false);
                  ("array_variable", true); ("data_constant", false) ]%string |} ].
Proof. reflexivity. Qed.

Example test_bitstruct_buffered :
  ReportDescriptor_parse [x82; x01; x02]
  = Some [ {| bHeader := {| prefix := EnumIntegerString INPUT; bSize := 2 |};
              data := DataFlags
                [ ("reserved6", false); ("reserved5", false); ("reserved4", false);
                  ("reserved3", false); ("reserved2", false); ("reserved1", false);
                  ("reserved0", false); ("bitfield_bufferedbytes", true);
                  ("volatile", false); ("null", false); ("nPreferred", false);
                  ("nLinear", false); ("wrap", false); ("absolute_relative", false);
                  ("array_variable", true); ("data_constant", false) ]%string |} ].
Proof. reflexivity. Qed.

Example test_bitstruct_report_count :
  ReportDescriptor_parse [x95; x08]
  = Some [ {| bHeader := {| prefix := EnumIntegerString REPORT_COUNT; bSize := 1 |};
              data := DataList [PyInt 8] |} ].
Proof. reflexivity. Qed.

Example test_report_desc :
  exists parsed,
    ReportDescriptor_parse report_descriptor_E6 = Some parsed
    /\ List.length parsed = 32%nat
    /\ option_map (fun it => prefix (bHeader it)) (nth_error parsed 0)
       = Some (EnumIntegerString USAGE_PAGE)
    /\ nth_error parsed 5
       = Some {| bHeader := {| prefix := EnumIntegerString USAGE_MAX; bSize := 1 |};
                 data := DataList [PyInt 231] |}
    /\ option_map data (nth_error parsed 9) = Some (DataList [PyInt 8])
    /\ option_map (fun it => prefix (bHeader it)) (nth_error parsed 10)
       = Some (EnumIntegerString INPUT)
    /\ nth_error parsed 31
       = Some {| bHeader := {| prefix := EnumIntegerString END_COLLECTION; bSize := 0 |};
                 data := DataList [] |}.
Proof. eexists. split; [vm_compute; reflexivity|]. repeat split. Qed.

(** * Bytes and bits *)

Lemma byte2bits_testbit (b : byte) :
  byte2bits b = map (Z.testbit (Z_of_byte b)) [7; 6; 5; 4; 3; 2; 1; 0].
Proof. destruct b; reflexivity. Qed.

Lemma bits2bytes_byte2bits (b : byte) (bits : list bool) :
  bits2bytes (byte2bits b ++ bits) = rest <- bits2bytes bits ;; Ok (b :: rest).
Proof.
  unfold byte2bits.
  destruct (Byte.to_bits b) as [b0 [b1 [b2 [b3 [b4 [b5 [b6 b7]]]]]]] eqn:E.
  cbn [app bits2bytes]. rewrite <- E, Byte.of_bits_to_bits. reflexivity.
Qed.

Lemma Z_of_byte_range (b : byte) : 0 <= Z_of_byte b < 256.
Proof. destruct b; vm_compute; split; congruence. Qed.

Lemma byte_of_Z_of_byte (b : byte) : byte_of_Z (Z_of_byte b) = b.
Proof. destruct b; reflexivity. Qed.

Lemma bSize_cases (b : byte) :
  let sz := Z.land (Z_of_byte b) 3 in sz = 0 \/ sz = 1 \/ sz = 2 \/ sz = 3.
Proof. destruct b; vm_compute; auto. Qed.

(** * The header byte *)

Lemma bHeader_parse_byte (b : byte) (s : list byte) :
  bHeader_parse (b :: s)
  = Ok ({| prefix := Enum_decode (Z.shiftr (Z_of_byte b) 2);
           bSize := Z.land (Z_of_byte b) 3 |}, s).
Proof. destruct b; reflexivity. Qed.

Lemma bHeader_parse_nil : bHeader_parse [] = Raise StreamError.
Proof. reflexivity. Qed.

Lemma bHeader_build_byte (b : byte) :
  bHeader_build {| prefix := Enum_decode (Z.shiftr (Z_of_byte b) 2);
                   bSize := Z.land (Z_of_byte b) 3 |}
  = Ok [b].
Proof. destruct b; reflexivity. Qed.

Lemma Enum_decode_member (p : HIDPrefix) :
  Enum_decode (HIDPrefix_value p) = EnumIntegerString p.
Proof. destruct p; reflexivity. Qed.

Lemma Enum_decode_unmapped (n : Z) :
  (forall p, HIDPrefix_value p <> n) -> Enum_decode n = EnumInteger n.
Proof.
  intros H. unfold Enum_decode.
  destruct (find _ HIDPrefix_members) as [p|] eqn:E; [|reflexivity].
  apply find_some in E. destruct E as [_ E].
  apply Z.eqb_eq in E. contradiction (H p).
Qed.

(** * Payloads *)

Lemma Array_parse_app (payload rest : list byte) :
  Array_parse (List.length payload) (payload ++ rest)
  = Ok (ints_of_bytes payload, rest).
Proof.
  induction payload as [|b payload IH]; [reflexivity|].
  cbn [List.length app Array_parse Byte_parse bind]. rewrite IH. reflexivity.
Qed.

Lemma Array_parse_inv (count : nat) :
  forall s l rest,
    Array_parse count s = Ok (l, rest) ->
    exists payload,
      s = payload ++ rest /\ List.length payload = count
      /\ l = ints_of_bytes payload.
Proof.
  induction count as [|count IH]; intros s l rest H.
  - inversion H; subst. exists []. repeat split.
  - destruct s as [|b s]; [discriminate|].
    cbn [Array_parse Byte_parse bind] in H.
    destruct (Array_parse count s) as [[l' rest']|e] eqn:E; [|discriminate].
    inversion H; subst. destruct (IH _ _ _ E) as (payload & -> & Hlen & ->).
    exists (b :: payload). cbn. rewrite Hlen. repeat split.
Qed.

Lemma Array_parse_short (count : nat) :
  forall s, (List.length s < count)%nat -> Array_parse count s = Raise StreamError.
Proof.
  induction count as [|count IH]; intros s H; [inversion H|].
  destruct s as [|b s]; [reflexivity|].
  cbn [Array_parse Byte_parse bind]. rewrite IH; [reflexivity|].
  cbn in H. lia.
Qed.

Lemma Array_build_elems_ints (payload : list byte) :
  Array_build_elems (ints_of_bytes payload) = Ok payload.
Proof.
  induction payload as [|b payload IH]; [reflexivity|].
  cbn [ints_of_bytes map Array_build_elems Byte_build].
  fold (ints_of_bytes payload). rewrite IH.
  pose proof (Z_of_byte_range b) as [H0 H1].
  apply Z.leb_le in H0. apply Z.ltb_lt in H1. rewrite H0, H1.
  cbn. rewrite byte_of_Z_of_byte. reflexivity.
Qed.

Lemma Array_build_ints (payload : list byte) :
  Array_build (List.length payload) (ints_of_bytes payload) = Ok payload.
Proof.
  unfold Array_build, ints_of_bytes. rewrite length_map, Nat.eqb_refl.
  apply Array_build_elems_ints.
Qed.

Lemma ItemFlags1_parse_byte (b : byte) (s : list byte) :
  Subcon_parse ItemFlags1 (b :: s)
  = Ok (DataFlags (flags_of_bits ItemFlags1_names (byte2bits b)), s).
Proof.
  unfold byte2bits, Subcon_parse, ItemFlags1, Bitwise_parse.
  cbn -[Byte.to_bits]. unfold byte2bits.
  destruct (Byte.to_bits b) as [b0 [b1 [b2 [b3 [b4 [b5 [b6 b7]]]]]]].
  reflexivity.
Qed.

Lemma ItemFlags1_build_byte (b : byte) :
  Subcon_build ItemFlags1 (DataFlags (flags_of_bits ItemFlags1_names (byte2bits b)))
  = Ok [b].
Proof.
  pose proof (bits2bytes_byte2bits b []) as H. rewrite app_nil_r in H.
  unfold byte2bits in *.
  destruct (Byte.to_bits b) as [b0 [b1 [b2 [b3 [b4 [b5 [b6 b7]]]]]]].
  unfold Subcon_build, ItemFlags1, Bitwise_build.
  cbn -[bits2bytes]. rewrite H. reflexivity.
Qed.

Lemma ItemFlags2_parse_bytes (b0 b1 : byte) (s : list byte) :
  Subcon_parse ItemFlags2 (b0 :: b1 :: s)
  = Ok (DataFlags (flags_of_bits ItemFlags2_names (byte2bits b0 ++ byte2bits b1)), s).
Proof.
  unfold Subcon_parse, ItemFlags2, Bitwise_parse.
  cbn -[Byte.to_bits]. unfold byte2bits.
  destruct (Byte.to_bits b0) as [a0 [a1 [a2 [a3 [a4 [a5 [a6 a7]]]]]]].
  destruct (Byte.to_bits b1) as [c0 [c1 [c2 [c3 [c4 [c5 [c6 c7]]]]]]].
  reflexivity.
Qed.

Lemma ItemFlags2_build_bytes (b0 b1 : byte) :
  Subcon_build ItemFlags2
    (DataFlags (flags_of_bits ItemFlags2_names (byte2bits b0 ++ byte2bits b1)))
  = Ok [b0; b1].
Proof.
  pose proof (bits2bytes_byte2bits b0 (byte2bits b1)) as H.
  pose proof (bits2bytes_byte2bits b1 []) as H1. rewrite app_nil_r in H1.
  rewrite H1 in H. cbn [bind] in H.
  unfold byte2bits in *.
  destruct (Byte.to_bits b0) as [a0 [a1 [a2 [a3 [a4 [a5 [a6 a7]]]]]]].
  destruct (Byte.to_bits b1) as [c0 [c1 [c2 [c3 [c4 [c5 [c6 c7]]]]]]].
  unfold Subcon_build, ItemFlags2, Bitwise_build.
  cbn -[bits2bytes] in *. rewrite H. reflexivity.
Qed.

(** What a payload format parses it builds back, byte for byte. *)
Lemma Subcon_parse_build (sc : Subcon) (s rest : list byte) (d : data_t) :
  payload_format sc ->
  Subcon_parse sc s = Ok (d, rest) ->
  exists payload,
    s = payload ++ rest /\ List.length payload = Subcon_sizeof sc
    /\ Subcon_build sc d = Ok payload.
Proof.
  intros [[count ->]|[->| ->]] H.
  - cbn [Subcon_parse] in H.
    destruct (Array_parse count s) as [[l rest']|e] eqn:E; [|discriminate].
    inversion H; subst. destruct (Array_parse_inv _ _ _ _ E) as (payload & -> & Hlen & ->).
    exists payload. repeat split; [exact Hlen|].
    cbn [Subcon_build]. rewrite <- Hlen. apply Array_build_ints.
  - destruct s as [|b s]; [discriminate|].
    rewrite ItemFlags1_parse_byte in H. inversion H; subst.
    exists [b]. repeat split. apply ItemFlags1_build_byte.
  - destruct s as [|b0 [|b1 s]]; [discriminate|discriminate|].
    rewrite ItemFlags2_parse_bytes in H. inversion H; subst.
    exists [b0; b1]. repeat split. apply ItemFlags2_build_bytes.
Qed.

(** A payload of the format's size is parsed, whatever its bytes and whatever
    follows it. *)
Lemma Subcon_parse_total (sc : Subcon) (payload : list byte) :
  payload_format sc ->
  List.length payload = Subcon_sizeof sc ->
  exists d, forall rest, Subcon_parse sc (payload ++ rest) = Ok (d, rest).
Proof.
  intros [[count ->]|[->| ->]] H; cbn in H.
  - subst count. eexists. intros rest. cbn [Subcon_parse].
    rewrite Array_parse_app. reflexivity.
  - destruct payload as [|b [|? ?]]; try discriminate.
    eexists. intros rest. cbn [app]. apply ItemFlags1_parse_byte.
  - destruct payload as [|b0 [|b1 [|? ?]]]; try discriminate.
    eexists. intros rest. cbn [app]. apply ItemFlags2_parse_bytes.
Qed.

(** A payload shorter than the format's size raises [StreamError]. *)
Lemma Subcon_parse_short (sc : Subcon) (s : list byte) :
  payload_format sc ->
  (List.length s < Subcon_sizeof sc)%nat ->
  Subcon_parse sc s = Raise StreamError.
Proof.
  intros [[count ->]|[->| ->]] H; cbn in H.
  - cbn [Subcon_parse]. rewrite Array_parse_short; [reflexivity|exact H].
  - destruct s as [|? ?]; [reflexivity|cbn in H; lia].
  - destruct s as [|? [|? ?]]; [reflexivity|reflexivity|cbn in H; lia].
Qed.

(** The format a parsed header selects, and its size. *)
Lemma data_subcon_member (p : HIDPrefix) (sz : Z) :
  sz = 0 \/ sz = 1 \/ sz = 2 \/ sz = 3 ->
  exists sc,
    data_subcon {| prefix := EnumIntegerString p; bSize := sz |} = Ok sc
    /\ payload_format sc
    /\ list_getitem _hid_item_length sz = Ok (Z.of_nat (Subcon_sizeof sc)).
Proof.
  unfold payload_format.
  intros [->|[->|[->| ->]]]; destruct p; eexists;
    (split; [reflexivity|split; [|reflexivity]]);
    first [ left; eexists; reflexivity
          | right; left; reflexivity
          | right; right; reflexivity ].
Qed.

Lemma data_subcon_unmapped (n sz : Z) :
  data_subcon {| prefix := EnumInteger n; bSize := sz |}
  = Raise (AttributeError "intvalue").
Proof. reflexivity. Qed.

(** An item whose header prefix is unmapped: the header is parsed, and the
    test for flags then raises on the bare integer. *)
Lemma ReportDescriptorItem_parse_unmapped (b : byte) (s : list byte) :
  (forall p, HIDPrefix_value p <> Z.shiftr (Z_of_byte b) 2) ->
  ReportDescriptorItem_parse (b :: s) = Raise (AttributeError "intvalue").
Proof.
  intros H. unfold ReportDescriptorItem_parse.
  rewrite bHeader_parse_byte, (Enum_decode_unmapped _ H). reflexivity.
Qed.

Lemma data_subcon_parsed (b : byte) (sc : Subcon) :
  data_subcon {| prefix := Enum_decode (Z.shiftr (Z_of_byte b) 2);
                 bSize := Z.land (Z_of_byte b) 3 |} = Ok sc ->
  payload_format sc.
Proof.
  intros H. unfold Enum_decode in H.
  destruct (find _ HIDPrefix_members) as [p|]; [|discriminate].
  destruct (data_subcon_member p _ (bSize_cases b)) as (sc' & E & F & _).
  cbv zeta in E. rewrite E in H. inversion H; subst. exact F.
Qed.

(** * One item *)

(** What [ReportDescriptorItem] parses it builds back; an item takes at least
    its header byte. *)
Lemma ReportDescriptorItem_parse_build (s rest : list byte)
    (it : ReportDescriptorItem_t) :
  ReportDescriptorItem_parse s = Ok (it, rest) ->
  exists enc,
    ReportDescriptorItem_build it = Ok enc /\ s = enc ++ rest /\ enc <> [].
Proof.
  intros H. destruct s as [|b s]; [discriminate|].
  unfold ReportDescriptorItem_parse in H.
  rewrite bHeader_parse_byte in H. cbn [bind] in H.
  destruct (data_subcon _) as [sc|e] eqn:Esc; [|discriminate].
  cbn [bind] in H.
  destruct (Subcon_parse sc s) as [[d rest']|e] eqn:Ed; [|discriminate].
  inversion H; subst. clear H.
  destruct (Subcon_parse_build _ _ _ _ (data_subcon_parsed _ _ Esc) Ed)
    as (payload & -> & _ & Hb).
  exists (b :: payload). split; [|split; [reflexivity|discriminate]].
  unfold ReportDescriptorItem_build. cbn [bHeader data].
  rewrite bHeader_build_byte. cbn [bind]. rewrite Esc. cbn [bind].
  rewrite Hb. reflexivity.
Qed.

Lemma ReportDescriptorItem_parse_shorter (s rest : list byte)
    (it : ReportDescriptorItem_t) :
  ReportDescriptorItem_parse s = Ok (it, rest) ->
  (List.length rest < List.length s)%nat.
Proof.
  intros H. destruct (ReportDescriptorItem_parse_build _ _ _ H) as (enc & _ & -> & Hne).
  rewrite length_app. destruct enc; [contradiction|cbn; lia].
Qed.

(** An item of the wire format is parsed, and nothing but its bytes is taken. *)
Lemma ReportDescriptorItem_parse_valid (b : byte) (payload : list byte)
    (p : HIDPrefix) (len : Z) :
  Z.shiftr (Z_of_byte b) 2 = HIDPrefix_value p ->
  list_getitem _hid_item_length (Z.land (Z_of_byte b) 3) = Ok len ->
  Z.of_nat (List.length payload) = len ->
  exists it,
    forall rest, ReportDescriptorItem_parse (b :: payload ++ rest) = Ok (it, rest).
Proof.
  intros Hp Hlen Hpay. subst len.
  destruct (data_subcon_member p _ (bSize_cases b)) as (sc & E & F & G).
  cbv zeta in E, G. rewrite G in Hlen. injection Hlen as Hlen.
  apply Nat2Z.inj in Hlen. symmetry in Hlen.
  destruct (Subcon_parse_total sc payload F Hlen) as (d & Hd).
  eexists. intros rest.
  unfold ReportDescriptorItem_parse. rewrite bHeader_parse_byte. cbn [bind].
  rewrite Hp, Enum_decode_member, E. cbn [bind].
  rewrite Hd. reflexivity.
Qed.

(** A header whose payload is cut short, or whose prefix is unmapped, makes
    the item raise. *)
Lemma ReportDescriptorItem_parse_truncated (b : byte) (tail : list byte) (len : Z) :
  list_getitem _hid_item_length (Z.land (Z_of_byte b) 3) = Ok len ->
  Z.of_nat (List.length tail) < len ->
  exists e, ReportDescriptorItem_parse (b :: tail) = Raise e.
Proof.
  intros Hlen Hshort.
  unfold ReportDescriptorItem_parse. rewrite bHeader_parse_byte. cbn [bind].
  unfold Enum_decode.
  destruct (find _ HIDPrefix_members) as [p|].
  - destruct (data_subcon_member p _ (bSize_cases b)) as (sc & E & F & G).
    cbv zeta in E, G. rewrite E. cbn [bind].
    rewrite G in Hlen. injection Hlen as Hlen.
    rewrite (Subcon_parse_short sc tail F) by lia.
    eexists. reflexivity.
  - eexists. reflexivity.
Qed.

(** * The stream of items *)

Lemma GreedyRange_parse_mono {A : Type}
    (subcon : list byte -> result (A * list byte)) (n : nat) :
  forall m s r,
    (n <= m)%nat ->
    GreedyRange_parse subcon n s = Some r ->
    GreedyRange_parse subcon m s = Some r.
Proof.
  induction n as [|n IH]; intros m s r Hle H; [discriminate|].
  destruct m as [|m]; [lia|].
  cbn [GreedyRange_parse] in *.
  destruct (subcon s) as [[e s']|err]; [|exact H].
  destruct (GreedyRange_parse subcon n s') as [[obj rest]|] eqn:E; [|discriminate].
  rewrite (IH m s' _ ltac:(lia) E). exact H.
Qed.

Lemma GreedyRange_parse_enough (n : nat) :
  forall s,
    (List.length s < n)%nat ->
    exists r, GreedyRange_parse ReportDescriptorItem_parse n s = Some r.
Proof.
  induction n as [|n IH]; intros s H; [lia|].
  cbn [GreedyRange_parse].
  destruct (ReportDescriptorItem_parse s) as [[e s']|err] eqn:E; [|eauto].
  apply ReportDescriptorItem_parse_shorter in E.
  destruct (IH s' ltac:(lia)) as [[obj rest] ->]. eauto.
Qed.

Lemma GreedyRange_parse_fuel (n : nat) (s : list byte) :
  (List.length s < n)%nat ->
  GreedyRange_parse ReportDescriptorItem_parse n s = ReportDescriptor_parse_stream s.
Proof.
  intros H. unfold ReportDescriptor_parse_stream.
  destruct (GreedyRange_parse_enough (S (List.length s)) s ltac:(lia)) as [r Hr].
  rewrite Hr. apply (GreedyRange_parse_mono _ (S (List.length s))); [lia|exact Hr].
Qed.

(** The loop of [GreedyRange], one turn unrolled. *)
Lemma ReportDescriptor_parse_stream_eq (s : list byte) :
  ReportDescriptor_parse_stream s
  = match ReportDescriptorItem_parse s with
    | Raise _ => Some ([], s)
    | Ok (e, s') =>
        match ReportDescriptor_parse_stream s' with
        | Some (obj, rest) => Some (e :: obj, rest)
        | None => None
        end
    end.
Proof.
  unfold ReportDescriptor_parse_stream at 1. cbn [GreedyRange_parse].
  destruct (ReportDescriptorItem_parse s) as [[e s']|err] eqn:E; [|reflexivity].
  apply ReportDescriptorItem_parse_shorter in E.
  rewrite GreedyRange_parse_fuel by exact E. reflexivity.
Qed.

(** Parsing a buffer always returns: a list of items and the unread rest. *)
Lemma ReportDescriptor_parse_stream_total (s : list byte) :
  exists obj rest, ReportDescriptor_parse_stream s = Some (obj, rest).
Proof.
  destruct (GreedyRange_parse_enough (S (List.length s)) s ltac:(lia)) as [[obj rest] H].
  exists obj, rest. exact H.
Qed.

(** The items parsed build back the bytes that were read. *)
Lemma ReportDescriptor_parse_stream_build (n : nat) :
  forall s obj rest,
    (List.length s <= n)%nat ->
    ReportDescriptor_parse_stream s = Some (obj, rest) ->
    exists enc, ReportDescriptor_build obj = Ok enc /\ s = enc ++ rest.
Proof.
  induction n as [|n IH]; intros s obj rest Hn H;
    rewrite ReportDescriptor_parse_stream_eq in H;
    destruct (ReportDescriptorItem_parse s) as [[e s']|err] eqn:E.
  - apply ReportDescriptorItem_parse_shorter in E. lia.
  - inversion H; subst. exists []. split; reflexivity.
  - destruct (ReportDescriptor_parse_stream s') as [[obj' rest']|] eqn:E'; [|discriminate].
    inversion H; subst. clear H.
    pose proof (ReportDescriptorItem_parse_shorter _ _ _ E) as Hlt.
    destruct (ReportDescriptorItem_parse_build _ _ _ E) as (enc1 & Hb1 & -> & _).
    destruct (IH s' obj' rest ltac:(lia) E') as (enc2 & Hb2 & ->).
    exists (enc1 ++ enc2). split; [|apply app_assoc].
    unfold ReportDescriptor_build in *. cbn [GreedyRange_build].
    rewrite Hb1. cbn [bind]. rewrite Hb2. reflexivity.
  - inversion H; subst. exists []. split; reflexivity.
Qed.

(** A valid buffer followed by anything: its items come first, then whatever
    the rest parses to. *)
Lemma ReportDescriptor_parse_stream_valid_app (pre : list byte) :
  valid_report pre ->
  exists items,
    forall suffix obj rest,
      ReportDescriptor_parse_stream suffix = Some (obj, rest) ->
      ReportDescriptor_parse_stream (pre ++ suffix) = Some (items ++ obj, rest).
Proof.
  induction 1 as [|b payload rest0 p len Hp Hlen Hpay Hv [items IH]].
  - exists []. intros suffix obj rest H. exact H.
  - destruct (ReportDescriptorItem_parse_valid b payload p len Hp Hlen Hpay)
      as [it Hit].
    exists (it :: items). intros suffix obj rest H.
    rewrite ReportDescriptor_parse_stream_eq.
    cbn [app]. rewrite <- app_assoc. rewrite Hit.
    rewrite (IH _ _ _ H). reflexivity.
Qed.

Lemma ReportDescriptor_parse_stream_nil :
  ReportDescriptor_parse_stream [] = Some ([], []).
Proof. reflexivity. Qed.

(** A valid buffer is read to its end. *)
Lemma ReportDescriptor_parse_stream_valid (b : list byte) :
  valid_report b ->
  exists items, ReportDescriptor_parse_stream b = Some (items, []).
Proof.
  intros H. destruct (ReportDescriptor_parse_stream_valid_app b H) as [items Hi].
  exists items. specialize (Hi [] [] [] ReportDescriptor_parse_stream_nil).
  rewrite !app_nil_r in Hi. exact Hi.
Qed.

(** * Round trip of a report descriptor *)

(** C1: every validly encoded report descriptor buffer is decoded into a
    sequence of items whose re-encoding is the buffer itself, byte for byte:
    [ReportDescriptor.build(ReportDescriptor.parse(b)) == b]. *)
Theorem ReportDescriptor_roundtrip (b : list byte) :
  valid_report b ->
  exists items,
    ReportDescriptor_parse b = Some items
    /\ ReportDescriptor_build items = Ok b.
Proof.
  intros Hv.
  destruct (ReportDescriptor_parse_stream_valid b Hv) as [items Hp].
  exists items. split.
  - unfold ReportDescriptor_parse. rewrite Hp. reflexivity.
  - destruct (ReportDescriptor_parse_stream_build (List.length b) b items []
                (Nat.le_refl _) Hp) as (enc & Hb & He).
    rewrite app_nil_r in He. subst enc. exact Hb.
Qed.

Lemma ReportDescriptor_roundtrip_witness :
  valid_report [x05; x01; x82; x01; x02; xc0]
  /\ exists items,
       ReportDescriptor_parse [x05; x01; x82; x01; x02; xc0] = Some items
       /\ ReportDescriptor_build items = Ok [x05; x01; x82; x01; x02; xc0].
Proof.
  assert (Hv : valid_report [x05; x01; x82; x01; x02; xc0]).
  { apply (valid_report_item x05 [x01] [x82; x01; x02; xc0] USAGE_PAGE 1);
      [reflexivity|reflexivity|reflexivity|].
    apply (valid_report_item x82 [x01; x02] [xc0] INPUT 2);
      [reflexivity|reflexivity|reflexivity|].
    apply (valid_report_item xc0 [] [] END_COLLECTION 0);
      [reflexivity|reflexivity|reflexivity|].
    apply valid_report_nil. }
  split; [exact Hv|].
  apply (ReportDescriptor_roundtrip [x05; x01; x82; x01; x02; xc0] Hv).
Defined.

(** * Truncated buffers *)

(** C3, as the spec has it, fails: the header [0x09] (USAGE, size class 1)
    declares one payload byte and none is left, yet parsing returns the item
    before it and raises nothing. *)
Lemma ReportDescriptor_truncated_counterexample :
  list_getitem _hid_item_length (Z.land (Z_of_byte x09) 3) = Ok 1
  /\ ReportDescriptor_parse ([x05; x01] ++ x09 :: [])
     = Some [ {| bHeader := {| prefix := EnumIntegerString USAGE_PAGE; bSize := 1 |};
                 data := DataList [PyInt 1] |} ].
Proof. split; reflexivity. Qed.

(** C3, amended: when a header byte declares more payload bytes than are left
    after it, [ReportDescriptor.parse] raises nothing; it returns the items of
    the valid part before that header, and the stream is left at the header:
    the cut-off item is dropped. *)
Theorem ReportDescriptor_truncated_dropped
    (pre : list byte) (b : byte) (tail : list byte) (len : Z) :
  valid_report pre ->
  list_getitem _hid_item_length (Z.land (Z_of_byte b) 3) = Ok len ->
  Z.of_nat (List.length tail) < len ->
  exists items,
    ReportDescriptor_parse pre = Some items
    /\ ReportDescriptor_parse_stream (pre ++ b :: tail) = Some (items, b :: tail)
    /\ ReportDescriptor_parse (pre ++ b :: tail) = Some items.
Proof.
  intros Hv Hlen Hshort.
  destruct (ReportDescriptor_parse_stream_valid_app pre Hv) as [items Hi].
  destruct (ReportDescriptorItem_parse_truncated b tail len Hlen Hshort) as [e He].
  assert (Hs : ReportDescriptor_parse_stream (b :: tail) = Some ([], b :: tail)).
  { rewrite ReportDescriptor_parse_stream_eq, He. reflexivity. }
  exists items. split; [|split].
  - unfold ReportDescriptor_parse.
    pose proof (Hi [] [] [] ReportDescriptor_parse_stream_nil) as H0.
    rewrite !app_nil_r in H0. rewrite H0. reflexivity.
  - pose proof (Hi _ _ _ Hs) as H1. rewrite app_nil_r in H1. exact H1.
  - unfold ReportDescriptor_parse.
    pose proof (Hi _ _ _ Hs) as H1. rewrite app_nil_r in H1. rewrite H1.
    reflexivity.
Qed.

Lemma ReportDescriptor_truncated_dropped_witness :
  exists items,
    ReportDescriptor_parse [x05; x01] = Some items
    /\ ReportDescriptor_parse_stream ([x05; x01] ++ x26 :: [xff])
       = Some (items, x26 :: [xff])
    /\ ReportDescriptor_parse ([x05; x01] ++ x26 :: [xff]) = Some items.
Proof.
  apply (ReportDescriptor_truncated_dropped [x05; x01] x26 [xff] 2).
  - apply (valid_report_item x05 [x01] [] USAGE_PAGE 1);
      [reflexivity|reflexivity|reflexivity|apply valid_report_nil].
  - reflexivity.
  - reflexivity.
Defined.

(** * The header byte *)

(** C7: for every prefix of the enumeration and every size class in 0..3 the
    header builds into one byte, the prefix in its upper six bits and the size
    class in its lower two, and that byte parses back into the same prefix
    and size class. *)
Theorem bHeader_roundtrip (p : HIDPrefix) (s : Z) :
  0 <= s <= 3 ->
  exists b,
    bHeader_build {| prefix := Member p; bSize := s |} = Ok [b]
    /\ Z.shiftr (Z_of_byte b) 2 = HIDPrefix_value p
    /\ Z.land (Z_of_byte b) 3 = s
    /\ bHeader_parse [b] = Ok ({| prefix := EnumIntegerString p; bSize := s |}, [])
    /\ bHeader_build {| prefix := EnumIntegerString p; bSize := s |} = Ok [b].
Proof.
  intros Hs.
  assert (Hc : s = 0 \/ s = 1 \/ s = 2 \/ s = 3) by lia.
  destruct Hc as [->|[->|[->| ->]]]; destruct p;
    eexists; (split; [reflexivity|repeat split]).
Qed.

Lemma bHeader_roundtrip_witness :
  exists b,
    bHeader_build {| prefix := Member REPORT_COUNT; bSize := 1 |} = Ok [b]
    /\ Z.shiftr (Z_of_byte b) 2 = HIDPrefix_value REPORT_COUNT
    /\ Z.land (Z_of_byte b) 3 = 1
    /\ bHeader_parse [b]
       = Ok ({| prefix := EnumIntegerString REPORT_COUNT; bSize := 1 |}, [])
    /\ bHeader_build {| prefix := EnumIntegerString REPORT_COUNT; bSize := 1 |}
       = Ok [b].
Proof. apply (bHeader_roundtrip REPORT_COUNT 1). lia. Defined.

(** C8, as the spec has it, fails: the upper six bits of [0x0c] are 3, which
    is no member of the enumeration, and the header parses all the same, into
    the bare integer. *)
Lemma bHeader_unmapped_counterexample :
  (forall p, HIDPrefix_value p <> Z.shiftr (Z_of_byte x0c) 2)
  /\ bHeader_parse [x0c] = Ok ({| prefix := EnumInteger 3; bSize := 0 |}, []).
Proof. split; [intros p; destruct p; discriminate|reflexivity]. Qed.

(** C8, amended: for every header byte whose upper six bits are no member of
    the prefix enumeration, parsing the header succeeds and gives those six
    bits back as a bare integer, next to the size class. *)
Theorem bHeader_unmapped_parses (b : byte) (s : list byte) :
  (forall p, HIDPrefix_value p <> Z.shiftr (Z_of_byte b) 2) ->
  bHeader_parse (b :: s)
  = Ok ({| prefix := EnumInteger (Z.shiftr (Z_of_byte b) 2);
           bSize := Z.land (Z_of_byte b) 3 |}, s).
Proof.
  intros H. rewrite bHeader_parse_byte, (Enum_decode_unmapped _ H). reflexivity.
Qed.

Lemma bHeader_unmapped_parses_witness :
  bHeader_parse (xfe :: [x01])
  = Ok ({| prefix := EnumInteger (Z.shiftr (Z_of_byte xfe) 2);
           bSize := Z.land (Z_of_byte xfe) 3 |}, [x01]).
Proof.
  apply (bHeader_unmapped_parses xfe [x01]).
  intros p; destruct p; discriminate.
Defined.

(** * Flag records *)

(** C6, as the spec has it, fails: in the byte [0x02] only bit 1 is set; the
    record parsed from it has [array_variable] set, the flag the spec's order
    puts at bit 6, and [null], which that order puts at bit 1, clear. *)
Lemma ItemFlags1_order_counterexample :
  ~ (forall (b : byte) (c : Container) (name : string),
       Subcon_parse ItemFlags1 [b] = Ok (DataFlags c, []) ->
       In name ItemFlags1_names ->
       Container_get c name
       = Some (Z.testbit (Z_of_byte b) (spec_ItemFlags1_bit name))).
Proof.
  intros H.
  specialize (H x02 _ "array_variable"%string eq_refl).
  cbn in H. specialize (H ltac:(tauto)). discriminate H.
Qed.

(** C6, amended: in the 1-byte flag record the eight flags take the byte from
    its least significant bit to its most significant one in the order
    [data_constant], [array_variable], [absolute_relative], [wrap], [nLinear],
    [nPreferred], [null], [volatile]; that is, [volatile] is bit 7 and
    [data_constant] is bit 0.  Building the record gives the byte back. *)
Theorem ItemFlags1_layout (b : byte) (s : list byte) :
  let bit := Z.testbit (Z_of_byte b) in
  let c := [ ("volatile", bit 7); ("null", bit 6); ("nPreferred", bit 5);
             ("nLinear", bit 4); ("wrap", bit 3); ("absolute_relative", bit 2);
             ("array_variable", bit 1); ("data_constant", bit 0) ]%string in
  Subcon_parse ItemFlags1 (b :: s) = Ok (DataFlags c, s)
  /\ Subcon_build ItemFlags1 (DataFlags c) = Ok [b].
Proof.
  cbv zeta.
  pose proof (ItemFlags1_parse_byte b s) as Hp.
  pose proof (ItemFlags1_build_byte b) as Hb.
  rewrite byte2bits_testbit in Hp, Hb.
  split; [exact Hp|exact Hb].
Qed.

(** C5, as the spec has it, fails: the extended record is two bytes long, not
    four; a flagged item whose size class selects four payload bytes is parsed
    into four plain bytes, and the extended record is what size class 2, two
    payload bytes, selects. *)
Lemma ItemFlags2_counterexample :
  Subcon_sizeof ItemFlags2 = 2%nat
  /\ list_getitem _hid_item_length 3 = Ok 4
  /\ data_subcon {| prefix := EnumIntegerString INPUT; bSize := 3 |} = Ok (ByteArray 4)
  /\ ReportDescriptorItem_parse [x83; x01; x02; x03; x04]
     = Ok ({| bHeader := {| prefix := EnumIntegerString INPUT; bSize := 3 |};
              data := DataList [PyInt 1; PyInt 2; PyInt 3; PyInt 4] |}, [])
  /\ data_subcon {| prefix := EnumIntegerString INPUT; bSize := 2 |} = Ok ItemFlags2.
Proof. repeat split. Qed.

(** C5, amended: the extended flag record is a 2-byte field.  Its second byte
    holds the same eight flags in the same bit order as the 1-byte record;
    the least significant bit of its first byte, the bit right above them
    when the two bytes are read as one big-endian number, is
    [bitfield_bufferedbytes]; the seven bits above that are reserved.  It is
    the format of an item's data exactly when the prefix is INPUT, OUTPUT or
    FEATURE and the size class is 2, which selects two payload bytes. *)
Theorem ItemFlags2_layout (b0 b1 : byte) (s : list byte) :
  let hi := Z.testbit (Z_of_byte b0) in
  let lo := Z.testbit (Z_of_byte b1) in
  let flags := [ ("volatile", lo 7); ("null", lo 6); ("nPreferred", lo 5);
                 ("nLinear", lo 4); ("wrap", lo 3); ("absolute_relative", lo 2);
                 ("array_variable", lo 1); ("data_constant", lo 0) ]%string in
  let c := [ ("reserved6", hi 7); ("reserved5", hi 6); ("reserved4", hi 5);
             ("reserved3", hi 4); ("reserved2", hi 3); ("reserved1", hi 2);
             ("reserved0", hi 1); ("bitfield_bufferedbytes", hi 0) ]%string
           ++ flags in
  Subcon_parse ItemFlags2 (b0 :: b1 :: s) = Ok (DataFlags c, s)
  /\ Subcon_build ItemFlags2 (DataFlags c) = Ok [b0; b1]
  /\ Subcon_parse ItemFlags1 (b1 :: s) = Ok (DataFlags flags, s)
  /\ Subcon_sizeof ItemFlags2 = 2%nat
  /\ list_getitem _hid_item_length 2 = Ok 2
  /\ (forall p sz,
        data_subcon {| prefix := EnumIntegerString p; bSize := sz |} = Ok ItemFlags2
        <-> In p [INPUT; OUTPUT; FEATURE] /\ sz = 2).
Proof.
  cbv zeta.
  pose proof (ItemFlags2_parse_bytes b0 b1 s) as Hp.
  pose proof (ItemFlags2_build_bytes b0 b1) as Hb.
  pose proof (ItemFlags1_parse_byte b1 s) as Hp1.
  rewrite (byte2bits_testbit b0), (byte2bits_testbit b1) in Hp.
  rewrite (byte2bits_testbit b0), (byte2bits_testbit b1) in Hb.
  rewrite (byte2bits_testbit b1) in Hp1.
  split; [exact Hp|]. split; [exact Hb|]. split; [exact Hp1|].
  split; [reflexivity|]. split; [reflexivity|].
  intros p sz. split.
  - intros H.
    assert (Hf : In p [INPUT; OUTPUT; FEATURE] \/ ~ In p [INPUT; OUTPUT; FEATURE]).
    { destruct p; cbn;
        first [ left; solve [auto 6]
              | right; intros [H'|[H'|[H'|[]]]]; discriminate H' ]. }
    destruct Hf as [Hf|Hf].
    + split; [exact Hf|].
      assert (Hd : data_subcon {| prefix := EnumIntegerString p; bSize := sz |}
                   = Ok (ItemFlags {| prefix := EnumIntegerString p; bSize := sz |})).
      { destruct Hf as [<-|[<-|[<-|[]]]]; reflexivity. }
      rewrite Hd in H. injection H as H.
      unfold ItemFlags in H. cbn [bSize] in H.
      change (dict_get _hid_item_flags sz)
        with (if 0 =? sz then Some (ByteArray 0)
              else if 1 =? sz then Some ItemFlags1
              else if 2 =? sz then Some ItemFlags2
              else if 3 =? sz then Some (ByteArray 4) else None) in H.
      destruct (Z.eqb_spec 0 sz); [discriminate|].
      destruct (Z.eqb_spec 1 sz); [discriminate|].
      destruct (Z.eqb_spec 2 sz); [congruence|].
      destruct (Z.eqb_spec 3 sz); discriminate.
    + exfalso.
      assert (Hd : data_subcon {| prefix := EnumIntegerString p; bSize := sz |}
                   = count <- list_getitem _hid_item_length sz ;;
                     Ok (ByteArray (Z.to_nat count))).
      { destruct p; try reflexivity; exfalso; apply Hf; cbn; auto 6. }
      rewrite Hd in H.
      destruct (list_getitem _hid_item_length sz); discriminate.
  - intros [Hf ->]. destruct Hf as [<-|[<-|[<-|[]]]]; reflexivity.
Qed.

(** C2, as the spec has it, fails: under the prefix INPUT, size class 2 (two
    payload bytes) is parsed into a flag record, and size class 3 (four
    payload bytes) into plain bytes. *)
Lemma data_dispatch_counterexample :
  list_getitem _hid_item_length 2 = Ok 2
  /\ (exists c,
        ReportDescriptorItem_parse [x82; x01; x02]
        = Ok ({| bHeader := {| prefix := EnumIntegerString INPUT; bSize := 2 |};
                 data := DataFlags c |}, []))
  /\ list_getitem _hid_item_length 3 = Ok 4
  /\ (exists l,
        ReportDescriptorItem_parse [x83; x01; x02; x03; x04]
        = Ok ({| bHeader := {| prefix := EnumIntegerString INPUT; bSize := 3 |};
                 data := DataList l |}, [])).
Proof. repeat split; eexists; reflexivity. Qed.

(** C2, amended: an item whose prefix is INPUT, OUTPUT or FEATURE is parsed,
    and its payload becomes a flag record exactly when the size class selects
    a payload of 1 or 2 bytes (size class 1: the record [ItemFlags1] parses
    from the one byte, size class 2: the record [ItemFlags2] parses from the
    two bytes), and the plain list of its bytes exactly when the size class
    selects a payload of 0 or 4 bytes. *)
Theorem data_dispatch (p : HIDPrefix) (b : byte) (payload rest : list byte) (len : Z) :
  In p [INPUT; OUTPUT; FEATURE] ->
  Z.shiftr (Z_of_byte b) 2 = HIDPrefix_value p ->
  list_getitem _hid_item_length (Z.land (Z_of_byte b) 3) = Ok len ->
  Z.of_nat (List.length payload) = len ->
  exists it,
    ReportDescriptorItem_parse (b :: payload ++ rest) = Ok (it, rest)
    /\ ((exists c, data it = DataFlags c) <-> len = 1 \/ len = 2)
    /\ (len = 1 ->
        data_subcon (bHeader it) = Ok ItemFlags1
        /\ Subcon_parse ItemFlags1 payload = Ok (data it, [])
        /\ data it = DataFlags (flags_of_bits ItemFlags1_names (bytes2bits payload)))
    /\ (len = 2 ->
        data_subcon (bHeader it) = Ok ItemFlags2
        /\ Subcon_parse ItemFlags2 payload = Ok (data it, [])
        /\ data it = DataFlags (flags_of_bits ItemFlags2_names (bytes2bits payload)))
    /\ (data it = DataList (ints_of_bytes payload) <-> len = 0 \/ len = 4).
Proof.
  intros Hf Hp Hlen Hpay.
  unfold ReportDescriptorItem_parse.
  rewrite bHeader_parse_byte, Hp, Enum_decode_member. cbn [bind].
  destruct (bSize_cases b) as [E|[E|[E|E]]]; cbv zeta in E; rewrite E in *;
    injection Hlen as Hlen; subst len.
  - assert (Hn : List.length payload = 0%nat) by lia. clear Hpay.
    destruct payload as [|? ?]; [|discriminate].
    destruct Hf as [<-|[<-|[<-|[]]]];
      (eexists; split; [reflexivity|]; cbn [data bHeader];
       split; [split; [intros [c Hc]; discriminate Hc|intros [H|H]; discriminate H]|];
       split; [intros H; discriminate H|];
       split; [intros H; discriminate H|];
       split; [intros _; left; reflexivity|intros _; reflexivity]).
  - assert (Hn : List.length payload = 1%nat) by lia. clear Hpay.
    destruct payload as [|x [|? ?]]; try discriminate. cbn [app].
    destruct Hf as [<-|[<-|[<-|[]]]];
      (eexists; split;
       [change (data_subcon _) with (Ok ItemFlags1); cbn [bind];
        rewrite ItemFlags1_parse_byte; reflexivity|]; cbn [data bHeader];
       split; [split; [intros _; left; reflexivity|intros _; eexists; reflexivity]|];
       split; [intros _; split; [reflexivity|];
               split; [apply ItemFlags1_parse_byte|];
               cbn [bytes2bits flat_map]; rewrite app_nil_r; reflexivity|];
       split; [intros H; discriminate H|];
       split; [intros H; discriminate H|intros [H|H]; discriminate H]).
  - assert (Hn : List.length payload = 2%nat) by lia. clear Hpay.
    destruct payload as [|x [|y [|? ?]]]; try discriminate. cbn [app].
    destruct Hf as [<-|[<-|[<-|[]]]];
      (eexists; split;
       [change (data_subcon _) with (Ok ItemFlags2); cbn [bind];
        rewrite ItemFlags2_parse_bytes; reflexivity|]; cbn [data bHeader];
       split; [split; [intros _; right; reflexivity|intros _; eexists; reflexivity]|];
       split; [intros H; discriminate H|];
       split; [intros _; split; [reflexivity|];
               split; [apply ItemFlags2_parse_bytes|];
               cbn [bytes2bits flat_map]; rewrite app_nil_r; reflexivity|];
       split; [intros H; discriminate H|intros [H|H]; discriminate H]).
  - assert (Hn : List.length payload = 4%nat) by lia. clear Hpay.
    destruct payload as [|x [|y [|z [|w [|? ?]]]]]; try discriminate. cbn [app].
    destruct Hf as [<-|[<-|[<-|[]]]];
      (eexists; split; [reflexivity|]; cbn [data bHeader];
       split; [split; [intros [c Hc]; discriminate Hc|intros [H|H]; discriminate H]|];
       split; [intros H; discriminate H|];
       split; [intros H; discriminate H|];
       split; [intros _; right; reflexivity|intros _; reflexivity]).
Qed.

Lemma data_dispatch_witness :
  exists it,
    ReportDescriptorItem_parse (x92 :: [x01; x02] ++ [xc0]) = Ok (it, [xc0])
    /\ ((exists c, data it = DataFlags c) <-> 2 = 1 \/ 2 = 2)
    /\ (2 = 1 ->
        data_subcon (bHeader it) = Ok ItemFlags1
        /\ Subcon_parse ItemFlags1 [x01; x02] = Ok (data it, [])
        /\ data it = DataFlags (flags_of_bits ItemFlags1_names (bytes2bits [x01; x02])))
    /\ (2 = 2 ->
        data_subcon (bHeader it) = Ok ItemFlags2
        /\ Subcon_parse ItemFlags2 [x01; x02] = Ok (data it, [])
        /\ data it = DataFlags (flags_of_bits ItemFlags2_names (bytes2bits [x01; x02])))
    /\ (data it = DataList (ints_of_bytes [x01; x02]) <-> 2 = 0 \/ 2 = 4).
Proof.
  apply (data_dispatch OUTPUT x92 [x01; x02] [xc0] 2).
  - simpl. tauto.
  - reflexivity.
  - reflexivity.
  - reflexivity.
Defined.

(** * The emitter *)

Lemma Z_of_byte_of_Z (z : Z) : 0 <= z < 256 -> Z_of_byte (byte_of_Z z) = z.
Proof.
  intros H. unfold Z_of_byte, byte_of_Z.
  destruct (Byte.of_N (Z.to_N z)) as [b|] eqn:E.
  - apply Byte.to_of_N in E. rewrite E. apply Z2N.id. lia.
  - apply Byte.of_N_None_iff in E. lia.
Qed.

Lemma emit_reports_Forall2 (reports : list report_t) :
  forall encodings,
    Forall2 (fun report enc => report_emit report = Ok enc) reports encodings ->
    emit_reports reports = Ok encodings.
Proof.
  induction reports as [|r reports IH]; intros encodings H; inversion H; subst.
  - reflexivity.
  - cbn [emit_reports]. rewrite H2. cbn [bind]. rewrite (IH _ H4). reflexivity.
Qed.

Lemma HIDDescriptorType_build_length (K : Z) :
  0 <= K < 65536 ->
  exists lo hi,
    HIDDescriptorType_build (Some K)
    = Ok [x09; x21; x11; x01; x00; x01; x22; lo; hi]
    /\ Z_of_byte lo + 256 * Z_of_byte hi = K.
Proof.
  intros H. unfold HIDDescriptorType_build.
  destruct (Z.leb_spec 0 K); [|lia]. destruct (Z.ltb_spec K 65536); [|lia].
  cbn [andb]. eexists. eexists. split; [reflexivity|].
  change 255 with (Z.ones 8). rewrite Z.land_ones by lia.
  rewrite Z.shiftr_div_pow2 by lia. change (2 ^ 8) with 256.
  rewrite !Z_of_byte_of_Z.
  - pose proof (Z.div_mod K 256 ltac:(lia)). lia.
  - split; [apply Z.div_pos; lia|apply Z.div_lt_upper_bound; lia].
  - apply Z.mod_pos_bound. lia.
Qed.

(** C4, as the spec has it, fails: one raw contribution of 65536 bytes
    encodes to itself, so [K] is 65536; [_pre_emit] sets the length and
    registers the blob, and the header cannot hold that length in its 16-bit
    field: [emit] raises and produces no header. *)
Lemma HIDDescriptor_emit_length_counterexample :
  Forall2 (fun report enc => report_emit report = Ok enc)
    (_reports oversized_builder) [oversized_report]
  /\ Z.of_nat (List.length (List.concat [oversized_report])) = 65536
  /\ (exists self',
        _pre_emit oversized_builder = Ok self'
        /\ wDescriptorLength self' = Some 65536
        /\ descriptors (_parent_descriptor self') = [(0x22, oversized_report)])
  /\ emit oversized_builder = Raise FormatFieldError.
Proof.
  assert (Hlen : Z.of_nat (List.length (List.concat [oversized_report])) = 65536).
  { cbn [List.concat]. rewrite app_nil_r. unfold oversized_report.
    rewrite repeat_length. apply Z2Nat.id. lia. }
  assert (Hpre : _pre_emit oversized_builder
                 = Ok {| _parent_descriptor := {| descriptors := [(0x22, oversized_report)] |};
                         _reports := [RawReport oversized_report];
                         wDescriptorLength := Some 65536 |}).
  { unfold _pre_emit, oversized_builder.
    cbn [_reports emit_reports report_emit bind _parent_descriptor].
    rewrite Hlen. cbn [List.concat]. rewrite app_nil_r. reflexivity. }
  split.
  { unfold oversized_builder. cbn [_reports].
    apply Forall2_cons; [exact eq_refl|apply Forall2_nil]. }
  split; [exact Hlen|].
  split; [eexists; split; [exact Hpre|split; reflexivity]|].
  unfold emit. rewrite Hpre. reflexivity.
Qed.

(** C4, amended: when the pending contributions encode to byte strings that
    total [K] bytes, one call sets [wDescriptorLength] to [K] and adds exactly
    one entry to the descriptor table, of type 0x22, holding those [K] bytes
    in the order the contributions were appended; [emit] produces the header
    whose [wDescriptorLength] is [K] when [K] fits the 16-bit field, that is
    below 65536, and raises when it does not. *)
Theorem HIDDescriptor_emit_length (self : HIDDescriptor)
    (encodings : list (list byte)) :
  Forall2 (fun report enc => report_emit report = Ok enc) (_reports self) encodings ->
  exists self',
    _pre_emit self = Ok self'
    /\ wDescriptorLength self' = Some (Z.of_nat (List.length (List.concat encodings)))
    /\ descriptors (_parent_descriptor self')
       = descriptors (_parent_descriptor self) ++ [(0x22, List.concat encodings)]
    /\ (Z.of_nat (List.length (List.concat encodings)) < 65536 ->
        exists lo hi,
          emit self = Ok ([x09; x21; x11; x01; x00; x01; x22; lo; hi], self')
          /\ Z_of_byte lo + 256 * Z_of_byte hi
             = Z.of_nat (List.length (List.concat encodings)))
    /\ (65536 <= Z.of_nat (List.length (List.concat encodings)) ->
        emit self = Raise FormatFieldError).
Proof.
  intros H. apply emit_reports_Forall2 in H.
  eexists. split; [unfold _pre_emit; rewrite H; reflexivity|].
  cbn [wDescriptorLength _parent_descriptor add_descriptor descriptors].
  split; [reflexivity|]. split; [reflexivity|]. split.
  - intros HK.
    destruct (HIDDescriptorType_build_length
                (Z.of_nat (List.length (List.concat encodings))) ltac:(lia))
      as (lo & hi & Hb & Hv).
    exists lo, hi. split; [|exact Hv].
    unfold emit, _pre_emit. rewrite H. cbn [bind wDescriptorLength].
    rewrite Hb. reflexivity.
  - intros HK. unfold emit, _pre_emit. rewrite H. cbn [bind wDescriptorLength].
    unfold HIDDescriptorType_build.
    destruct (Z.ltb_spec (Z.of_nat (List.length (List.concat encodings))) 65536);
      [lia|].
    rewrite andb_false_r. reflexivity.
Qed.

Lemma HIDDescriptor_emit_length_witness :
  exists self',
    _pre_emit sample_builder = Ok self'
    /\ wDescriptorLength self' = Some 4
    /\ descriptors (_parent_descriptor self') = [(0x22, [x05; x01; x09; x06])]
    /\ (4 < 65536 ->
        exists lo hi,
          emit sample_builder = Ok ([x09; x21; x11; x01; x00; x01; x22; lo; hi], self')
          /\ Z_of_byte lo + 256 * Z_of_byte hi = 4)
    /\ (65536 <= 4 -> emit sample_builder = Raise FormatFieldError).
Proof.
  apply (HIDDescriptor_emit_length sample_builder [[x05; x01]; [x09; x06]]).
  unfold sample_builder. cbn [_reports].
  apply Forall2_cons; [reflexivity|].
  apply Forall2_cons; [reflexivity|].
  apply Forall2_nil.
Defined.

(** C9: evaluated on the code.  [preferred] defaults to true and is encoded
    negated, [array_variable] defaults to true and the other flags to false,
    as the claim has it; [linear], though, defaults to false in the signature
    of [add_inpout_item], so that a call leaving it unset sets the [nLinear]
    bit: the default flag byte is [0x12], and [0x02] only when [linear=True]
    is passed. *)
Theorem add_input_item_defaults (parent : DeviceDescriptorCollection) :
  linear defaults = false
  /\ Container_get (item_flags_dict defaults) "nLinear" = Some true
  /\ Container_get (item_flags_dict defaults) "nPreferred" = Some false
  /\ add_input_item (__init__ parent) defaults
     = Ok (append_report (__init__ parent)
             (ItemReport {| bHeader := {| prefix := Member INPUT; bSize := 1 |};
                            data := DataList [PyBytes [x12]] |}))
  /\ add_input_item (__init__ parent)
       {| data_constant := false; array_variable := true;
          absolute_relative := false; wrap := false;
          linear := true; preferred := true;
          null := false; volatile := false;
          bitfield_bufferedbytes := false |}
     = Ok (append_report (__init__ parent)
             (ItemReport {| bHeader := {| prefix := Member INPUT; bSize := 1 |};
                            data := DataList [PyBytes [x02]] |})).
Proof. repeat split. Qed.

(** C10, as the claim has it, fails: with [bitfield_bufferedbytes=True] the
    dict of eight flags is built with [ItemFlags2], which has sixteen members;
    the first of them, [reserved6], is not in the dict, the build raises
    [KeyError] and no item is appended at all. *)
Lemma add_inpout_item_buffered_counterexample :
  add_inpout_item sample_builder (Member INPUT) buffered_kwargs
  = Raise (KeyError "reserved6")
  /\ ~ (exists self' item_flags,
          add_inpout_item sample_builder (Member INPUT) buffered_kwargs = Ok self'
          /\ List.length item_flags = 2%nat
          /\ In (ItemReport {| bHeader := {| prefix := Member INPUT; bSize := 1 |};
                               data := DataList [PyBytes item_flags] |})
                (_reports self')).
Proof.
  split; [reflexivity|].
  intros (self' & item_flags & H & _). discriminate H.
Qed.



(** C10, amended: every call to [add_inpout_item] with
    [bitfield_bufferedbytes] false (and so every such [add_input_item] and
    [add_output_item]) appends one item whose size class is 1, because
    [add_report_item] takes the size class from the number of payload
    arguments, here always the one flag-bytes object, whatever the length of
    that object; the object holds the one byte [ItemFlags1] builds. *)
Theorem add_inpout_item_size_class (self : HIDDescriptor) (item : prefix_t)
    (kw : inpout_kwargs) :
  bitfield_bufferedbytes kw = false ->
  (exists flags : byte,
     Subcon_build ItemFlags1 (DataFlags (item_flags_dict kw)) = Ok [flags]
     /\ add_inpout_item self item kw
        = Ok (append_report self
                (ItemReport {| bHeader := {| prefix := item; bSize := 1 |};
                               data := DataList [PyBytes [flags]] |})))
  /\ (forall item_flags : list byte,
        add_report_item self item [PyBytes item_flags]
        = Ok (append_report self
                (ItemReport {| bHeader := {| prefix := item; bSize := 1 |};
                               data := DataList [PyBytes item_flags] |}))).
Proof.
  intros Hb. split; [|intros; reflexivity].
  unfold add_inpout_item. rewrite Hb.
  destruct kw as [dc av ar wr li pr nu vo bb]. cbn [item_flags_dict
    Emitter.data_constant Emitter.array_variable Emitter.absolute_relative
    Emitter.wrap Emitter.linear Emitter.preferred Emitter.null Emitter.volatile].
  eexists. split; reflexivity.
Qed.

Lemma add_inpout_item_size_class_witness :
  (exists flags : byte,
     Subcon_build ItemFlags1 (DataFlags (item_flags_dict defaults)) = Ok [flags]
     /\ add_inpout_item sample_builder (Member OUTPUT) defaults
        = Ok (append_report sample_builder
                (ItemReport {| bHeader := {| prefix := Member OUTPUT; bSize := 1 |};
                               data := DataList [PyBytes [flags]] |})))
  /\ (forall item_flags : list byte,
        add_report_item sample_builder (Member OUTPUT) [PyBytes item_flags]
        = Ok (append_report sample_builder
                (ItemReport {| bHeader := {| prefix := Member OUTPUT; bSize := 1 |};
                               data := DataList [PyBytes item_flags] |}))).
Proof.
  apply (add_inpout_item_size_class sample_builder (Member OUTPUT) defaults).
  reflexivity.
Defined.

(** * More on the stream of items *)

(** The enumeration is [@unique] and fits the six bits of the header: an
    integer decodes to the name of [p] exactly when it is the value of [p]. *)
Theorem HIDPrefix_decode_iff (p : HIDPrefix) (n : Z) :
  (Enum_decode n = EnumIntegerString p <-> HIDPrefix_value p = n)
  /\ 0 <= HIDPrefix_value p < 64.
Proof.
  split; [split|destruct p; vm_compute; split; congruence].
  - unfold Enum_decode.
    destruct (find _ HIDPrefix_members) as [q|] eqn:E; [|discriminate].
    intros H. injection H as ->. apply find_some in E. destruct E as [_ E].
    apply Z.eqb_eq in E. exact E.
  - intros <-. apply Enum_decode_member.
Qed.

Lemma ReportDescriptor_parse_stream_stops (n : nat) :
  forall s items rest,
    (List.length s <= n)%nat ->
    ReportDescriptor_parse_stream s = Some (items, rest) ->
    exists e, ReportDescriptorItem_parse rest = Raise e.
Proof.
  induction n as [|n IH]; intros s items rest Hn H;
    rewrite ReportDescriptor_parse_stream_eq in H;
    destruct (ReportDescriptorItem_parse s) as [[it s']|err] eqn:E.
  - apply ReportDescriptorItem_parse_shorter in E. lia.
  - inversion H; subst. eauto.
  - destruct (ReportDescriptor_parse_stream s') as [[items' rest']|] eqn:E';
      [|discriminate].
    inversion H; subst. apply ReportDescriptorItem_parse_shorter in E.
    apply (IH s' items' rest ltac:(lia) E').
  - inversion H; subst. eauto.
Qed.

(** Parsing never raises and never runs on: every buffer, valid or not, is
    split into the items parsed, whose building gives back exactly the bytes
    read, and the unread rest, at which one more item would raise. *)
Theorem ReportDescriptor_parse_stream_any (s : list byte) :
  exists items rest enc,
    ReportDescriptor_parse_stream s = Some (items, rest)
    /\ ReportDescriptor_build items = Ok enc
    /\ s = enc ++ rest
    /\ (exists e, ReportDescriptorItem_parse rest = Raise e).
Proof.
  destruct (ReportDescriptor_parse_stream_total s) as (items & rest & H).
  destruct (ReportDescriptor_parse_stream_build _ s items rest (Nat.le_refl _) H)
    as (enc & Hb & He).
  exists items, rest, enc. repeat split; try assumption.
  apply (ReportDescriptor_parse_stream_stops _ s items rest (Nat.le_refl _) H).
Qed.

(** The format a header with a mapped prefix selects: plain bytes, or one of
    the two flag records, and those only under INPUT, OUTPUT or FEATURE. *)
Lemma data_subcon_shape (p : HIDPrefix) (sz : Z) :
  sz = 0 \/ sz = 1 \/ sz = 2 \/ sz = 3 ->
  exists sc,
    data_subcon {| prefix := EnumIntegerString p; bSize := sz |} = Ok sc
    /\ list_getitem _hid_item_length sz = Ok (Z.of_nat (Subcon_sizeof sc))
    /\ ((exists count, sc = ByteArray count)
        \/ (In p [INPUT; OUTPUT; FEATURE]
            /\ ((sz = 1 /\ sc = ItemFlags1) \/ (sz = 2 /\ sc = ItemFlags2)))).
Proof.
  intros [->|[->|[->| ->]]]; destruct p; eexists;
    (split; [reflexivity|split; [reflexivity|]]);
    first [ left; eexists; reflexivity
          | right; split; [cbn; auto 6|left; split; reflexivity]
          | right; split; [cbn; auto 6|right; split; reflexivity] ].
Qed.

Lemma ints_of_bytes_range (payload : list byte) :
  Forall (fun o => exists z, o = PyInt z /\ 0 <= z < 256) (ints_of_bytes payload).
Proof.
  induction payload as [|b payload IH]; constructor; [|exact IH].
  exists (Z_of_byte b). split; [reflexivity|apply Z_of_byte_range].
Qed.

(** What every parsed item looks like: its prefix is a member of the
    enumeration (a header with an unmapped prefix never makes an item), it
    took one header byte and the payload bytes its size class selects, and its
    data is either that many ints below 256 or, under INPUT, OUTPUT or
    FEATURE with one or two payload bytes, a flag record with the names of
    [ItemFlags1] or [ItemFlags2]. *)
Theorem ReportDescriptorItem_parse_invariant (s rest : list byte)
    (it : ReportDescriptorItem_t) :
  ReportDescriptorItem_parse s = Ok (it, rest) ->
  exists p len,
    prefix (bHeader it) = EnumIntegerString p
    /\ list_getitem _hid_item_length (bSize (bHeader it)) = Ok len
    /\ Z.of_nat (List.length s) = 1 + len + Z.of_nat (List.length rest)
    /\ match data it with
       | DataList l =>
           Z.of_nat (List.length l) = len
           /\ Forall (fun o => exists z, o = PyInt z /\ 0 <= z < 256) l
       | DataFlags c =>
           In p [INPUT; OUTPUT; FEATURE]
           /\ ((len = 1 /\ map fst c = ItemFlags1_names)
               \/ (len = 2 /\ map fst c = ItemFlags2_names))
       | DataNone => False
       end.
Proof.
  intros H. destruct s as [|b s]; [discriminate|].
  unfold ReportDescriptorItem_parse in H.
  rewrite bHeader_parse_byte in H. cbn [bind] in H.
  unfold Enum_decode in H.
  destruct (find _ HIDPrefix_members) as [p|]; [|discriminate].
  destruct (data_subcon_shape p _ (bSize_cases b)) as (sc & E & G & Hsc).
  cbv zeta in E, G. rewrite E in H. cbn [bind] in H.
  destruct (Subcon_parse sc s) as [[d rest']|e] eqn:Ed; [|discriminate].
  injection H as <- <-. cbn [bHeader prefix bSize data].
  exists p, (Z.of_nat (Subcon_sizeof sc)). split; [reflexivity|]. split; [exact G|].
  destruct Hsc as [[count ->]|[Hf [[Hsz ->]|[Hsz ->]]]].
  - cbn [Subcon_parse] in Ed.
    destruct (Array_parse count s) as [[l r]|e] eqn:Ea; [|discriminate].
    injection Ed as <- <-.
    destruct (Array_parse_inv _ _ _ _ Ea) as (payload & -> & Hlen & ->).
    cbn [Subcon_sizeof]. split; [cbn [List.length]; rewrite length_app; lia|].
    split; [unfold ints_of_bytes; rewrite length_map; lia|apply ints_of_bytes_range].
  - destruct s as [|x s]; [discriminate|].
    rewrite ItemFlags1_parse_byte in Ed. injection Ed as <- <-.
    change (Subcon_sizeof ItemFlags1) with 1%nat.
    split; [cbn [List.length]; lia|]. split; [exact Hf|]. left. split; [reflexivity|].
    unfold byte2bits.
    destruct (Byte.to_bits x) as [b0 [b1 [b2 [b3 [b4 [b5 [b6 b7]]]]]]].
    reflexivity.
  - destruct s as [|x [|y s]]; [discriminate|discriminate|].
    rewrite ItemFlags2_parse_bytes in Ed. injection Ed as <- <-.
    change (Subcon_sizeof ItemFlags2) with 2%nat.
    split; [cbn [List.length]; lia|]. split; [exact Hf|]. right. split; [reflexivity|].
    unfold byte2bits.
    destruct (Byte.to_bits x) as [a0 [a1 [a2 [a3 [a4 [a5 [a6 a7]]]]]]].
    destruct (Byte.to_bits y) as [c0 [c1 [c2 [c3 [c4 [c5 [c6 c7]]]]]]].
    reflexivity.
Qed.

Lemma ReportDescriptorItem_parse_invariant_witness :
  exists p len,
    prefix (bHeader {| bHeader := {| prefix := EnumIntegerString FEATURE; bSize := 2 |};
                       data := DataFlags (flags_of_bits ItemFlags2_names
                                            (byte2bits x01 ++ byte2bits x02)) |})
    = EnumIntegerString p
    /\ list_getitem _hid_item_length 2 = Ok len
    /\ Z.of_nat (List.length [xb2; x01; x02; xc0]) = 1 + len + Z.of_nat (List.length [xc0])
    /\ (In p [INPUT; OUTPUT; FEATURE]
        /\ ((len = 1 /\ map fst (flags_of_bits ItemFlags2_names
                                   (byte2bits x01 ++ byte2bits x02)) = ItemFlags1_names)
            \/ (len = 2 /\ map fst (flags_of_bits ItemFlags2_names
                                      (byte2bits x01 ++ byte2bits x02)) = ItemFlags2_names))).
Proof.
  apply (ReportDescriptorItem_parse_invariant [xb2; x01; x02; xc0] [xc0]
           {| bHeader := {| prefix := EnumIntegerString FEATURE; bSize := 2 |};
              data := DataFlags (flags_of_bits ItemFlags2_names
                                   (byte2bits x01 ++ byte2bits x02)) |}).
  reflexivity.
Defined.

(** A header whose prefix is unmapped ends the parse without an error: the
    items before it are the result, and whatever follows it, well-formed or
    not, is never read. *)
Theorem ReportDescriptor_parse_unmapped_stops (pre : list byte) (b : byte)
    (tail : list byte) :
  valid_report pre ->
  (forall p, HIDPrefix_value p <> Z.shiftr (Z_of_byte b) 2) ->
  exists items,
    ReportDescriptor_parse pre = Some items
    /\ ReportDescriptor_parse_stream (pre ++ b :: tail) = Some (items, b :: tail).
Proof.
  intros Hv Hb.
  destruct (ReportDescriptor_parse_stream_valid_app pre Hv) as [items Hi].
  assert (Hs : ReportDescriptor_parse_stream (b :: tail) = Some ([], b :: tail)).
  { rewrite ReportDescriptor_parse_stream_eq,
      (ReportDescriptorItem_parse_unmapped b tail Hb). reflexivity. }
  exists items. split.
  - unfold ReportDescriptor_parse.
    pose proof (Hi [] [] [] ReportDescriptor_parse_stream_nil) as H0.
    rewrite !app_nil_r in H0. rewrite H0. reflexivity.
  - pose proof (Hi _ _ _ Hs) as H1. rewrite app_nil_r in H1. exact H1.
Qed.

Lemma ReportDescriptor_parse_unmapped_stops_witness :
  exists items,
    ReportDescriptor_parse [x05; x01] = Some items
    /\ ReportDescriptor_parse_stream ([x05; x01] ++ xfc :: [x09; x06; xc0])
       = Some (items, xfc :: [x09; x06; xc0]).
Proof.
  apply (ReportDescriptor_parse_unmapped_stops [x05; x01] xfc [x09; x06; xc0]).
  - apply (valid_report_item x05 [x01] [] USAGE_PAGE 1);
      [reflexivity|reflexivity|reflexivity|apply valid_report_nil].
  - intros p; destruct p; discriminate.
Defined.

Lemma valid_report_app (b1 b2 : list byte) :
  valid_report b1 -> valid_report b2 -> valid_report (b1 ++ b2).
Proof.
  induction 1 as [|b payload rest p len Hp Hlen Hpay Hv IH]; intros H2; [exact H2|].
  cbn [app]. rewrite <- app_assoc.
  apply (valid_report_item b payload (rest ++ b2) p len Hp Hlen Hpay (IH H2)).
Qed.

(** Two valid buffers put one after the other are a valid buffer, and it
    parses into the items of the first followed by the items of the second. *)
Theorem ReportDescriptor_parse_app (b1 b2 : list byte) :
  valid_report b1 ->
  valid_report b2 ->
  valid_report (b1 ++ b2)
  /\ exists items1 items2,
       ReportDescriptor_parse b1 = Some items1
       /\ ReportDescriptor_parse b2 = Some items2
       /\ ReportDescriptor_parse (b1 ++ b2) = Some (items1 ++ items2).
Proof.
  intros H1 H2. split; [apply valid_report_app; assumption|].
  destruct (ReportDescriptor_parse_stream_valid_app b1 H1) as [items1 Hi].
  destruct (ReportDescriptor_parse_stream_valid b2 H2) as [items2 H2'].
  exists items1, items2. unfold ReportDescriptor_parse.
  pose proof (Hi [] [] [] ReportDescriptor_parse_stream_nil) as H0.
  rewrite !app_nil_r in H0. rewrite H0, H2', (Hi _ _ _ H2').
  repeat split.
Qed.

Lemma ReportDescriptor_parse_app_witness :
  valid_report ([x05; x01] ++ [xc0])
  /\ exists items1 items2,
       ReportDescriptor_parse [x05; x01] = Some items1
       /\ ReportDescriptor_parse [xc0] = Some items2
       /\ ReportDescriptor_parse ([x05; x01] ++ [xc0]) = Some (items1 ++ items2).
Proof.
  apply (ReportDescriptor_parse_app [x05; x01] [xc0]).
  - apply (valid_report_item x05 [x01] [] USAGE_PAGE 1);
      [reflexivity|reflexivity|reflexivity|apply valid_report_nil].
  - apply (valid_report_item xc0 [] [] END_COLLECTION 0);
      [reflexivity|reflexivity|reflexivity|apply valid_report_nil].
Defined.

(** * More on the emitter *)

Lemma list_index_hid_item_length (n sz : Z) :
  list_index _hid_item_length n = Ok sz <->
  (n = 0 /\ sz = 0) \/ (n = 1 /\ sz = 1) \/ (n = 2 /\ sz = 2) \/ (n = 4 /\ sz = 3).
Proof.
  unfold _hid_item_length. cbn [list_index].
  destruct (Z.eqb_spec 0 n), (Z.eqb_spec 1 n), (Z.eqb_spec 2 n), (Z.eqb_spec 4 n);
    cbn [bind];
    (split; [intros H; inversion H; lia
            |intros H; first [f_equal; lia | exfalso; lia]]).
Qed.

(** [add_report_item] counts its payload arguments, whatever they are: with
    0, 1, 2 or 4 of them it appends one item whose size class selects that
    many bytes and whose data is the tuple of the arguments as given; with
    any other number it raises [ValueError] (from [list.index]). *)
Theorem add_report_item_length (self : HIDDescriptor) (report_prefix : prefix_t)
    (report_data : list pyobj) :
  (In (List.length report_data) [0; 1; 2; 4]%nat ->
   exists sz,
     add_report_item self report_prefix report_data
     = Ok (append_report self
             (ItemReport {| bHeader := {| prefix := report_prefix; bSize := sz |};
                            data := DataList report_data |}))
     /\ list_getitem _hid_item_length sz = Ok (Z.of_nat (List.length report_data)))
  /\ (~ In (List.length report_data) [0; 1; 2; 4]%nat ->
      add_report_item self report_prefix report_data = Raise ValueError).
Proof.
  unfold add_report_item. split.
  - intros [H|[H|[H|[H|[]]]]]; rewrite <- H; eexists; split; reflexivity.
  - intros H.
    destruct (list_index _hid_item_length (Z.of_nat (List.length report_data)))
      as [sz|e] eqn:E.
    + exfalso. apply H. apply list_index_hid_item_length in E. cbn [In]. lia.
    + cbn [bind]. f_equal.
      clear H. revert E. unfold _hid_item_length. cbn [list_index].
      repeat match goal with
             | |- context [?a =? ?b] => destruct (a =? b); [discriminate|]
             end.
      cbn. congruence.
Qed.

Lemma add_report_item_length_witness :
  add_report_item sample_builder (Member USAGE) [PyInt 1; PyInt 2; PyInt 3]
  = Raise ValueError.
Proof.
  apply (proj2 (add_report_item_length sample_builder (Member USAGE)
                  [PyInt 1; PyInt 2; PyInt 3])).
  cbn. intros [H|[H|[H|[H|[]]]]]; discriminate H.
Defined.

Lemma bHeader_build_member (p : HIDPrefix) (sz : Z) :
  sz = 0 \/ sz = 1 \/ sz = 2 \/ sz = 3 ->
  exists h,
    bHeader_build {| prefix := Member p; bSize := sz |} = Ok [h]
    /\ Z_of_byte h = 4 * HIDPrefix_value p + sz
    /\ Z.shiftr (Z_of_byte h) 2 = HIDPrefix_value p
    /\ Z.land (Z_of_byte h) 3 = sz.
Proof.
  intros [->|[->|[->| ->]]]; destruct p; eexists;
    (split; [reflexivity|repeat split]).
Qed.

Lemma data_subcon_Member (p : HIDPrefix) (sz : Z) :
  data_subcon {| prefix := Member p; bSize := sz |}
  = data_subcon {| prefix := EnumIntegerString p; bSize := sz |}.
Proof. reflexivity. Qed.

(** The format by prefix and size class, case by case. *)
Lemma data_subcon_exact (p : HIDPrefix) (sz : Z) :
  sz = 0 \/ sz = 1 \/ sz = 2 \/ sz = 3 ->
  (In p [INPUT; OUTPUT; FEATURE] /\ sz = 1
   /\ data_subcon {| prefix := EnumIntegerString p; bSize := sz |} = Ok ItemFlags1)
  \/ (In p [INPUT; OUTPUT; FEATURE] /\ sz = 2
      /\ data_subcon {| prefix := EnumIntegerString p; bSize := sz |} = Ok ItemFlags2)
  \/ ((~ In p [INPUT; OUTPUT; FEATURE] \/ sz = 0 \/ sz = 3)
      /\ exists count,
           data_subcon {| prefix := EnumIntegerString p; bSize := sz |}
           = Ok (ByteArray count)
           /\ list_getitem _hid_item_length sz = Ok (Z.of_nat count)).
Proof.
  intros [->|[->|[->| ->]]]; destruct p;
    first [ left; split; [cbn; auto 6|split; reflexivity]
          | right; left; split; [cbn; auto 6|split; reflexivity]
          | right; right; split;
            [ first [ right; left; reflexivity | right; right; reflexivity
                    | left; intros [H|[H|[H|[]]]]; discriminate H ]
            | eexists; split; reflexivity ] ].
Qed.

Lemma Array_build_elems_PyInt (zs : list Z) :
  Array_build_elems (map PyInt zs)
  = if forallb byte_range zs then Ok (map byte_of_Z zs) else Raise FormatFieldError.
Proof.
  induction zs as [|z zs IH]; [reflexivity|].
  cbn [map Array_build_elems Byte_build forallb]. fold (byte_range z).
  destruct (byte_range z); cbn [bind andb]; [|reflexivity].
  rewrite IH. destruct (forallb byte_range zs); reflexivity.
Qed.

Lemma forallb_byte_range (zs : list Z) :
  forallb byte_range zs = true <-> Forall (fun z => 0 <= z < 256) zs.
Proof.
  rewrite forallb_forall, Forall_forall. unfold byte_range.
  split; intros H z Hz; specialize (H z Hz); lia.
Qed.

Lemma BitStruct_build_tuple (names : list string) (l : list pyobj) :
  names <> [] ->
  exists e, Subcon_build (BitStruct names) (DataList l) = Raise e.
Proof.
  intros Hn. cbn [Subcon_build]. unfold Bitwise_build.
  destruct (Container_update_tuple l) as [[]|e]; cbn [bind].
  - destruct names; [contradiction|]. eexists. reflexivity.
  - eexists. reflexivity.
Qed.

(** When the item appended by [add_report_item] can be emitted: every payload
    int lies in 0..255 and, under INPUT, OUTPUT or FEATURE, there are 0 or 4
    of them (with 1 or 2 the tuple of ints is handed to a flag record, which
    cannot build it).  The bytes are then the header, [4 * prefix + size
    class], and the payload ints in order. *)
Theorem add_report_item_emit_iff (p : HIDPrefix) (zs : list Z) (sz : Z) :
  list_index _hid_item_length (Z.of_nat (List.length zs)) = Ok sz ->
  ((exists enc,
      report_emit (ItemReport {| bHeader := {| prefix := Member p; bSize := sz |};
                                 data := DataList (map PyInt zs) |}) = Ok enc)
   <-> Forall (fun z => 0 <= z < 256) zs
       /\ (In p [INPUT; OUTPUT; FEATURE] ->
           List.length zs = 0%nat \/ List.length zs = 4%nat))
  /\ (forall enc,
        report_emit (ItemReport {| bHeader := {| prefix := Member p; bSize := sz |};
                                   data := DataList (map PyInt zs) |}) = Ok enc ->
        exists h,
          enc = h :: map byte_of_Z zs
          /\ Z_of_byte h = 4 * HIDPrefix_value p + sz).
Proof.
  intros Hidx. apply list_index_hid_item_length in Hidx.
  assert (Hsz : sz = 0 \/ sz = 1 \/ sz = 2 \/ sz = 3) by lia.
  destruct (bHeader_build_member p sz Hsz) as (h & Hh & Hv & _ & _).
  cbn [report_emit]. unfold ReportDescriptorItem_build. cbn [bHeader data].
  rewrite Hh, data_subcon_Member. cbn [bind].
  destruct (data_subcon_exact p sz Hsz)
    as [(Hf & -> & ->)|[(Hf & -> & ->)|(Hc & count & -> & Hg)]]; cbn [bind].
  - destruct (BitStruct_build_tuple ItemFlags1_names (map PyInt zs)
                ltac:(discriminate)) as [e He].
    change (BitStruct ItemFlags1_names) with ItemFlags1 in He. rewrite He. cbn [bind].
    split; [split|intros enc H; discriminate H].
    + intros [enc H]. discriminate H.
    + intros [_ H]. specialize (H Hf). lia.
  - destruct (BitStruct_build_tuple ItemFlags2_names (map PyInt zs)
                ltac:(discriminate)) as [e He].
    change (BitStruct ItemFlags2_names) with ItemFlags2 in He. rewrite He. cbn [bind].
    split; [split|intros enc H; discriminate H].
    + intros [enc H]. discriminate H.
    + intros [_ H]. specialize (H Hf). lia.
  - assert (Hcount : List.length (map PyInt zs) = count).
    { rewrite length_map.
      destruct Hidx as [[Hn ->]|[[Hn ->]|[[Hn ->]|[Hn ->]]]];
        injection Hg as Hg; lia. }
    cbn [Subcon_build]. unfold Array_build.
    rewrite Hcount, Nat.eqb_refl. cbn [negb].
    rewrite Array_build_elems_PyInt.
    destruct (forallb byte_range zs) eqn:Er; cbn [bind].
    + apply forallb_byte_range in Er.
      split; [split|].
      * intros _. split; [exact Er|]. intros Hf.
        destruct Hc as [Hc|Hc]; [contradiction|lia].
      * intros _. eexists. reflexivity.
      * intros enc [= <-]. exists h. split; [reflexivity|exact Hv].
    + split; [split|intros enc H; discriminate H].
      * intros [enc H]. discriminate H.
      * intros [H _]. apply forallb_byte_range in H. congruence.
Qed.

Lemma add_report_item_emit_iff_witness :
  ((exists enc,
      report_emit (ItemReport {| bHeader := {| prefix := Member USAGE_PAGE; bSize := 1 |};
                                 data := DataList (map PyInt [1]) |}) = Ok enc)
   <-> Forall (fun z => 0 <= z < 256) [1]
       /\ (In USAGE_PAGE [INPUT; OUTPUT; FEATURE] ->
           List.length [1] = 0%nat \/ List.length [1] = 4%nat))
  /\ (forall enc,
        report_emit (ItemReport {| bHeader := {| prefix := Member USAGE_PAGE; bSize := 1 |};
                                   data := DataList (map PyInt [1]) |}) = Ok enc ->
        exists h,
          enc = h :: map byte_of_Z [1]
          /\ Z_of_byte h = 4 * HIDPrefix_value USAGE_PAGE + 1).
Proof. apply (add_report_item_emit_iff USAGE_PAGE [1] 1). reflexivity. Defined.

Lemma HasItemFlags_In (p : HIDPrefix) :
  existsb (fun q => HIDPrefix_value q =? HIDPrefix_value p) [INPUT; OUTPUT; FEATURE] = true
  <-> In p [INPUT; OUTPUT; FEATURE].
Proof.
  destruct p; cbn; split; intros H;
    first [ reflexivity | discriminate H | solve [auto 6]
          | destruct H as [H|[H|[H|[]]]]; discriminate H ].
Qed.

(** A call that [plain_call_ok] accepts: the item builds into its header and
    payload bytes, and those parse back into the item. *)
Lemma plain_call_emit_parse (p : HIDPrefix) (payload : list byte) :
  plain_call_ok (p, payload) = true ->
  exists sz h,
    list_index _hid_item_length (Z.of_nat (List.length (ints_of_bytes payload))) = Ok sz
    /\ list_getitem _hid_item_length sz = Ok (Z.of_nat (List.length payload))
    /\ ReportDescriptorItem_build
         {| bHeader := {| prefix := Member p; bSize := sz |};
            data := DataList (ints_of_bytes payload) |} = Ok (h :: payload)
    /\ Z.shiftr (Z_of_byte h) 2 = HIDPrefix_value p
    /\ Z.land (Z_of_byte h) 3 = sz
    /\ forall rest,
         ReportDescriptorItem_parse (h :: payload ++ rest)
         = Ok ({| bHeader := {| prefix := EnumIntegerString p; bSize := sz |};
                  data := DataList (ints_of_bytes payload) |}, rest).
Proof.
  intros Hok. unfold plain_call_ok in Hok. cbv zeta in Hok.
  set (n := List.length payload) in *.
  assert (Hn : (n = 0 \/ n = 1 \/ n = 2 \/ n = 4)%nat
               /\ (In p [INPUT; OUTPUT; FEATURE] -> (n = 0 \/ n = 4)%nat)).
  { destruct (existsb _ _) eqn:Ef.
    - apply orb_true_iff in Hok. rewrite !Nat.eqb_eq in Hok. split; [lia|intros _; lia].
    - rewrite !orb_true_iff, !Nat.eqb_eq in Hok. split; [lia|].
      intros Hf. apply HasItemFlags_In in Hf. congruence. }
  destruct Hn as [Hn Hflag].
  assert (Hsz : exists sz,
             ((Z.of_nat n = 0 /\ sz = 0) \/ (Z.of_nat n = 1 /\ sz = 1)
              \/ (Z.of_nat n = 2 /\ sz = 2) \/ (Z.of_nat n = 4 /\ sz = 3))).
  { destruct Hn as [->|[->|[->| ->]]]; eexists; cbn; eauto 6. }
  destruct Hsz as [sz Hsz].
  assert (Hc : sz = 0 \/ sz = 1 \/ sz = 2 \/ sz = 3) by lia.
  assert (Hg : list_getitem _hid_item_length sz = Ok (Z.of_nat n)).
  { destruct Hsz as [[-> ->]|[[-> ->]|[[-> ->]|[-> ->]]]]; reflexivity. }
  destruct (bHeader_build_member p sz Hc) as (h & Hh & _ & Hp & Hl).
  assert (Hd : data_subcon {| prefix := EnumIntegerString p; bSize := sz |}
               = Ok (ByteArray n)).
  { destruct (data_subcon_exact p sz Hc)
      as [(Hf & -> & _)|[(Hf & -> & _)|(_ & count & Hd & Hg')]].
    - specialize (Hflag Hf). lia.
    - specialize (Hflag Hf). lia.
    - rewrite Hg in Hg'. injection Hg' as Hg'. apply Nat2Z.inj in Hg'.
      subst count. exact Hd. }
  exists sz, h. split; [|split; [exact Hg|split; [|split; [exact Hp|split; [exact Hl|]]]]].
  - unfold ints_of_bytes. rewrite length_map. fold n.
    apply list_index_hid_item_length. exact Hsz.
  - unfold ReportDescriptorItem_build. cbn [bHeader data].
    rewrite Hh, data_subcon_Member, Hd. cbn [bind Subcon_build].
    unfold n. rewrite Array_build_ints. reflexivity.
  - intros rest. unfold ReportDescriptorItem_parse.
    rewrite bHeader_parse_byte, Hp, Hl, Enum_decode_member. cbn [bind].
    rewrite Hd. cbn [bind Subcon_parse]. unfold n.
    rewrite Array_parse_app. reflexivity.
Qed.

Lemma emit_reports_app (l1 l2 : list report_t) (e1 e2 : list (list byte)) :
  emit_reports l1 = Ok e1 ->
  emit_reports l2 = Ok e2 ->
  emit_reports (l1 ++ l2) = Ok (e1 ++ e2).
Proof.
  revert e1. induction l1 as [|r l1 IH]; intros e1 H1 H2.
  - injection H1 as <-. exact H2.
  - cbn [emit_reports app] in *.
    destruct (report_emit r) as [b|e]; [|discriminate]. cbn [bind] in *.
    destruct (emit_reports l1) as [rest|e]; [|discriminate]. cbn [bind] in *.
    injection H1 as <-. rewrite (IH rest eq_refl H2). reflexivity.
Qed.

(** The items a run of accepted calls appends, their bytes, and what those
    bytes parse to. *)
Lemma add_report_items_emit (calls : list (HIDPrefix * list byte)) :
  forallb plain_call_ok calls = true ->
  forall self,
  exists rs encs items,
    add_report_items self calls
    = Ok {| _parent_descriptor := _parent_descriptor self;
            _reports := _reports self ++ rs;
            wDescriptorLength := wDescriptorLength self |}
    /\ emit_reports rs = Ok encs
    /\ valid_report (List.concat encs)
    /\ (forall suffix obj rest,
          ReportDescriptor_parse_stream suffix = Some (obj, rest) ->
          ReportDescriptor_parse_stream (List.concat encs ++ suffix)
          = Some (items ++ obj, rest))
    /\ Forall2 (fun call it =>
                  prefix (bHeader it) = EnumIntegerString (fst call)
                  /\ data it = DataList (ints_of_bytes (snd call))
                  /\ list_getitem _hid_item_length (bSize (bHeader it))
                     = Ok (Z.of_nat (List.length (snd call))))
               calls items.
Proof.
  induction calls as [|[p payload] calls IH]; intros Hok self.
  - exists [], [], []. rewrite app_nil_r. destruct self.
    repeat split; try reflexivity; try constructor. intros ? ? ? H. exact H.
  - cbn [forallb] in Hok. apply andb_true_iff in Hok. destruct Hok as [Hc Hcs].
    destruct (plain_call_emit_parse p payload Hc)
      as (sz & h & Hi & Hg & Hb & Hp & Hl & Hparse).
    cbn [add_report_items]. unfold add_report_item. rewrite Hi. cbn [bind].
    set (it := {| bHeader := {| prefix := Member p; bSize := sz |};
                  data := DataList (ints_of_bytes payload) |}) in *.
    destruct (IH Hcs (append_report self (ItemReport it)))
      as (rs & encs & items & Ha & He & Hv & Hs & Hf).
    exists (ItemReport it :: rs), ((h :: payload) :: encs),
      ({| bHeader := {| prefix := EnumIntegerString p; bSize := sz |};
          data := DataList (ints_of_bytes payload) |} :: items).
    split; [|split; [|split; [|split]]].
    + rewrite Ha. cbn [append_report _parent_descriptor _reports wDescriptorLength].
      rewrite <- app_assoc. reflexivity.
    + cbn [emit_reports report_emit]. rewrite Hb. cbn [bind]. rewrite He. reflexivity.
    + cbn [List.concat app].
      apply (valid_report_item h payload (List.concat encs) p
               (Z.of_nat (List.length payload))); try assumption.
      * rewrite Hl. exact Hg.
      * reflexivity.
    + intros suffix obj rest H. cbn [List.concat app].
      rewrite <- app_assoc, ReportDescriptor_parse_stream_eq, Hparse.
      rewrite (Hs _ _ _ H). reflexivity.
    + constructor; [|exact Hf]. cbn [fst snd bHeader prefix data bSize].
      repeat split. exact Hg.
Qed.

(** What the emitter writes the parser reads back: after any run of
    [add_report_item] calls that [plain_call_ok] accepts, on a fresh emitter,
    [_pre_emit] succeeds, the blob it registers is a valid report descriptor,
    and that blob parses into one item per call, in order, with the call's
    prefix and payload. *)
Theorem add_report_items_roundtrip (parent : DeviceDescriptorCollection)
    (calls : list (HIDPrefix * list byte)) :
  forallb plain_call_ok calls = true ->
  exists self self' blob items,
    add_report_items (__init__ parent) calls = Ok self
    /\ _pre_emit self = Ok self'
    /\ descriptors (_parent_descriptor self') = descriptors parent ++ [(0x22, blob)]
    /\ wDescriptorLength self' = Some (Z.of_nat (List.length blob))
    /\ valid_report blob
    /\ ReportDescriptor_parse blob = Some items
    /\ Forall2 (fun call it =>
                  prefix (bHeader it) = EnumIntegerString (fst call)
                  /\ data it = DataList (ints_of_bytes (snd call))
                  /\ list_getitem _hid_item_length (bSize (bHeader it))
                     = Ok (Z.of_nat (List.length (snd call))))
               calls items.
Proof.
  intros Hok.
  destruct (add_report_items_emit calls Hok (__init__ parent))
    as (rs & encs & items & Ha & He & Hv & Hs & Hf).
  cbn [__init__ _parent_descriptor _reports wDescriptorLength app] in Ha.
  eexists. eexists. exists (List.concat encs), items.
  split; [exact Ha|]. split; [unfold _pre_emit; cbn [_reports]; rewrite He; reflexivity|].
  cbn [_parent_descriptor add_descriptor descriptors wDescriptorLength].
  split; [reflexivity|]. split; [reflexivity|]. split; [exact Hv|].
  split; [|exact Hf].
  unfold ReportDescriptor_parse.
  pose proof (Hs [] [] [] ReportDescriptor_parse_stream_nil) as H0.
  rewrite !app_nil_r in H0. rewrite H0. reflexivity.
Qed.

Lemma add_report_items_roundtrip_witness :
  exists self self' blob items,
    add_report_items (__init__ {| descriptors := [] |}) test_hidemitter_calls = Ok self
    /\ _pre_emit self = Ok self'
    /\ descriptors (_parent_descriptor self') = [] ++ [(0x22, blob)]
    /\ wDescriptorLength self' = Some (Z.of_nat (List.length blob))
    /\ valid_report blob
    /\ ReportDescriptor_parse blob = Some items
    /\ Forall2 (fun call it =>
                  prefix (bHeader it) = EnumIntegerString (fst call)
                  /\ data it = DataList (ints_of_bytes (snd call))
                  /\ list_getitem _hid_item_length (bSize (bHeader it))
                     = Ok (Z.of_nat (List.length (snd call))))
               test_hidemitter_calls items.
Proof.
  apply (add_report_items_roundtrip {| descriptors := [] |} test_hidemitter_calls).
  reflexivity.
Defined.

(** The flag byte of [add_inpout_item]: whatever the order of the keys in the
    dict, each keyword lands on the bit of the member of its name
    ([data_constant] bit 0 up to [volatile] bit 7, [linear] and [preferred]
    negated), and parsing the byte as [ItemFlags1] gives every flag of the
    dict back. *)
Theorem add_inpout_item_flag_byte (self : HIDDescriptor) (item : prefix_t)
    (kw : inpout_kwargs) :
  bitfield_bufferedbytes kw = false ->
  exists b c,
    add_inpout_item self item kw
    = Ok (append_report self
            (ItemReport {| bHeader := {| prefix := item; bSize := 1 |};
                           data := DataList [PyBytes [b]] |}))
    /\ Z_of_byte b = item_flags_value kw
    /\ Subcon_parse ItemFlags1 [b] = Ok (DataFlags c, [])
    /\ (forall name, In name ItemFlags1_names ->
                     Container_get c name = Container_get (item_flags_dict kw) name).
Proof.
  intros Hb. unfold add_inpout_item, item_flags_value. rewrite Hb.
  destruct kw as [dc av ar wr li pr nu vo bb].
  cbn [Emitter.data_constant Emitter.array_variable Emitter.absolute_relative
       Emitter.wrap Emitter.linear Emitter.preferred Emitter.null Emitter.volatile].
  destruct dc, av, ar, wr, li, pr, nu, vo;
    (eexists; eexists; split; [reflexivity|split; [reflexivity|split; [reflexivity|]]];
     intros name [<-|[<-|[<-|[<-|[<-|[<-|[<-|[<-|[]]]]]]]]]; reflexivity).
Qed.

Lemma add_inpout_item_flag_byte_witness :
  exists b c,
    add_inpout_item sample_builder (Member INPUT) defaults
    = Ok (append_report sample_builder
            (ItemReport {| bHeader := {| prefix := Member INPUT; bSize := 1 |};
                           data := DataList [PyBytes [b]] |}))
    /\ Z_of_byte b = item_flags_value defaults
    /\ Subcon_parse ItemFlags1 [b] = Ok (DataFlags c, [])
    /\ (forall name, In name ItemFlags1_names ->
                     Container_get c name = Container_get (item_flags_dict defaults) name).
Proof.
  apply (add_inpout_item_flag_byte sample_builder (Member INPUT) defaults).
  reflexivity.
Defined.

(** With [bitfield_bufferedbytes=True], whatever the other keywords, the
    prefix and the emitter, [add_inpout_item] raises [KeyError] for
    [reserved6], the first member of [ItemFlags2], which the dict never has;
    nothing is appended. *)
Theorem add_inpout_item_buffered_raises (self : HIDDescriptor) (item : prefix_t)
    (kw : inpout_kwargs) :
  bitfield_bufferedbytes kw = true ->
  add_inpout_item self item kw = Raise (KeyError "reserved6").
Proof.
  intros Hb. unfold add_inpout_item. rewrite Hb. destruct kw. reflexivity.
Qed.

Lemma add_inpout_item_buffered_raises_witness :
  add_inpout_item (__init__ {| descriptors := [] |}) (Member FEATURE)
    {| data_constant := true; array_variable := false;
       absolute_relative := true; wrap := false;
       linear := true; preferred := true;
       null := false; volatile := true;
       bitfield_bufferedbytes := true |}
  = Raise (KeyError "reserved6").
Proof.
  apply (add_inpout_item_buffered_raises (__init__ {| descriptors := [] |})
           (Member FEATURE)).
  reflexivity.
Defined.





(** [_pre_emit] does not use up the pending contributions: after a call that
    succeeded a second call succeeds too, computes the same blob and the same
    length, and hands that blob to [add_descriptor] once more, under the same
    type, on the collaborator as the first call left it. *)
Theorem _pre_emit_twice (self self1 : HIDDescriptor) :
  _pre_emit self = Ok self1 ->
  exists blob self2,
    _parent_descriptor self1 = add_descriptor (_parent_descriptor self) blob 0x22
    /\ wDescriptorLength self1 = Some (Z.of_nat (List.length blob))
    /\ _pre_emit self1 = Ok self2
    /\ _parent_descriptor self2 = add_descriptor (_parent_descriptor self1) blob 0x22
    /\ wDescriptorLength self2 = wDescriptorLength self1
    /\ _reports self2 = _reports self.
Proof.
  unfold _pre_emit. intros H.
  destruct (emit_reports (_reports self)) as [encs|e] eqn:E; [|discriminate].
  cbn [bind] in H. injection H as <-.
  cbn [_reports _parent_descriptor wDescriptorLength].
  rewrite E. cbn [bind].
  eexists. eexists. split; [reflexivity|]. split; [reflexivity|].
  split; [reflexivity|]. repeat split.
Qed.

Lemma _pre_emit_twice_witness :
  exists blob self2,
    _parent_descriptor
      {| _parent_descriptor :=
           add_descriptor (_parent_descriptor sample_builder)
             [x05; x01; x09; x06] 0x22;
         _reports := _reports sample_builder;
         wDescriptorLength := Some 4 |}
    = add_descriptor (_parent_descriptor sample_builder) blob 0x22
    /\ wDescriptorLength
         {| _parent_descriptor :=
              add_descriptor (_parent_descriptor sample_builder)
                [x05; x01; x09; x06] 0x22;
            _reports := _reports sample_builder;
            wDescriptorLength := Some 4 |}
       = Some (Z.of_nat (List.length blob))
    /\ _pre_emit {| _parent_descriptor :=
                      add_descriptor (_parent_descriptor sample_builder)
                        [x05; x01; x09; x06] 0x22;
                    _reports := _reports sample_builder;
                    wDescriptorLength := Some 4 |} = Ok self2
    /\ _parent_descriptor self2
       = add_descriptor
           (_parent_descriptor
              {| _parent_descriptor :=
                   add_descriptor (_parent_descriptor sample_builder)
                     [x05; x01; x09; x06] 0x22;
                 _reports := _reports sample_builder;
                 wDescriptorLength := Some 4 |}) blob 0x22
    /\ wDescriptorLength self2 = Some 4
    /\ _reports self2 = _reports sample_builder.
Proof. apply (_pre_emit_twice sample_builder). reflexivity. Defined.

(** [_pre_emit] encodes the contributions in order and raises what the first
    one that fails raises; the contributions after it are not looked at. *)
Theorem _pre_emit_first_failure (self : HIDDescriptor)
    (before : list report_t) (encodings : list (list byte))
    (bad : report_t) (rest : list report_t) (e : error) :
  _reports self = before ++ bad :: rest ->
  Forall2 (fun report enc => report_emit report = Ok enc) before encodings ->
  report_emit bad = Raise e ->
  _pre_emit self = Raise e.
Proof.
  intros Hr Hd Hb.
  assert (H : emit_reports (before ++ bad :: rest) = Raise e).
  { clear Hr.
    induction Hd as [|r enc before encodings Hr' _ IH]; cbn [app emit_reports].
    - rewrite Hb. reflexivity.
    - rewrite Hr'. cbn [bind]. rewrite IH. reflexivity. }
  unfold _pre_emit. rewrite Hr, H. reflexivity.
Qed.

Lemma _pre_emit_first_failure_witness :
  _pre_emit {| _parent_descriptor := {| descriptors := [] |};
               _reports := [RawReport [x05; x01]]
                           ++ ItemReport {| bHeader := {| prefix := Member USAGE; bSize := 1 |};
                                            data := DataList [PyInt 256] |}
                              :: [RawReport [xc0]];
               wDescriptorLength := None |} = Raise FormatFieldError.
Proof.
  apply (_pre_emit_first_failure _ [RawReport [x05; x01]] [[x05; x01]]
           (ItemReport {| bHeader := {| prefix := Member USAGE; bSize := 1 |};
                          data := DataList [PyInt 256] |})
           [RawReport [xc0]] FormatFieldError).
  - reflexivity.
  - apply Forall2_cons; [reflexivity|apply Forall2_nil].
  - reflexivity.
Defined.

(** Adding a contribution that encodes extends what [_pre_emit] registers by
    exactly its bytes, at the end, and the length by their number. *)
Theorem add_report_raw_extends (self self1 : HIDDescriptor) (report : report_t)
    (enc : list byte) :
  _pre_emit self = Ok self1 ->
  report_emit report = Ok enc ->
  exists blob self2,
    descriptors (_parent_descriptor self1)
    = descriptors (_parent_descriptor self) ++ [(0x22, blob)]
    /\ wDescriptorLength self1 = Some (Z.of_nat (List.length blob))
    /\ _pre_emit (add_report_raw self report) = Ok self2
    /\ descriptors (_parent_descriptor self2)
       = descriptors (_parent_descriptor self) ++ [(0x22, blob ++ enc)]
    /\ wDescriptorLength self2
       = Some (Z.of_nat (List.length blob) + Z.of_nat (List.length enc)).
Proof.
  unfold _pre_emit. intros H He.
  destruct (emit_reports (_reports self)) as [encs|e] eqn:E; [|discriminate].
  cbn [bind] in H. injection H as <-.
  assert (H1 : emit_reports [report] = Ok [enc]).
  { cbn [emit_reports]. rewrite He. reflexivity. }
  unfold add_report_raw, append_report. cbn [_reports _parent_descriptor].
  rewrite (emit_reports_app _ _ _ _ E H1). cbn [bind].
  eexists. eexists.
  cbn [_parent_descriptor add_descriptor descriptors wDescriptorLength].
  split; [reflexivity|]. split; [reflexivity|]. split; [reflexivity|].
  cbn [_parent_descriptor add_descriptor descriptors wDescriptorLength].
  rewrite concat_app. cbn [List.concat]. rewrite app_nil_r.
  split; [reflexivity|]. rewrite length_app, Nat2Z.inj_add. reflexivity.
Qed.

Lemma add_report_raw_extends_witness :
  exists blob self2,
    descriptors (_parent_descriptor
                   {| _parent_descriptor :=
                        add_descriptor (_parent_descriptor sample_builder)
                          [x05; x01; x09; x06] 0x22;
                      _reports := _reports sample_builder;
                      wDescriptorLength := Some 4 |})
    = descriptors (_parent_descriptor sample_builder) ++ [(0x22, blob)]
    /\ wDescriptorLength
         {| _parent_descriptor :=
              add_descriptor (_parent_descriptor sample_builder)
                [x05; x01; x09; x06] 0x22;
            _reports := _reports sample_builder;
            wDescriptorLength := Some 4 |}
       = Some (Z.of_nat (List.length blob))
    /\ _pre_emit (add_report_raw sample_builder (RawReport [xa1; x01])) = Ok self2
    /\ descriptors (_parent_descriptor self2)
       = descriptors (_parent_descriptor sample_builder)
         ++ [(0x22, blob ++ [xa1; x01])]
    /\ wDescriptorLength self2
       = Some (Z.of_nat (List.length blob) + Z.of_nat (List.length [xa1; x01])).
Proof.
  apply (add_report_raw_extends sample_builder _ (RawReport [xa1; x01]) [xa1; x01]).
  - reflexivity.
  - reflexivity.
Defined.

(** The unit test of the emitter file, as it stands: the ten plain items are
    appended, [add_input_item] appends its item, and [emit] raises. *)
Example test_hidemitter :
  exists hd hd',
    add_report_items (__init__ {| descriptors := [] |}) test_hidemitter_calls = Ok hd
    /\ List.length (_reports hd) = 10%nat
    /\ add_input_item hd defaults = Ok hd'
    /\ List.length (_reports hd') = 11%nat
    /\ emit hd' = Raise ValueError.
Proof. eexists. eexists. repeat split. Qed.
